(** * thorlabs_KPRM1E: the device adaptor [Controller], embedded in Rocq

    A shallow embedding of [thorlabs_KPRM1E.py].  The serial port is a record
    holding the input buffer, the bytes the device will still deliver and the
    log of every transport call; the methods of [Controller] are computations
    in a state-and-exception monad over the controller's attributes.

    Modelling conventions:
    - a Python [bytes] value is a [list byte];
    - a Python [int] is a [Z]; a Python [float] is an exact rational [Q]
      (the rounding of binary64 arithmetic is outside the model);
    - [round(x)] and [round(x, n)] round half to even, as Python does;
    - the two [while True] loops take a fuel argument that bounds the number
      of polls; running out of fuel is the outcome [OutOfFuel], which is not
      a Python exception;
    - console output and [time.sleep] have no counterpart. *)

From Stdlib Require Import ZArith QArith Qabs List Bool Lia Lqa.
From Stdlib.Strings Require Import Byte String.
Import ListNotations.

Local Open Scope Z_scope.

(** ** Bytes and integers *)

Definition byte_to_Z (b : byte) : Z := Z.of_N (Byte.to_N b).

Definition byte_of_Z (z : Z) : byte :=
  match Byte.of_N (Z.to_N (z mod 256)) with
  | Some b => b
  | None => x00
  end.

(** [bs[a:b]] for [0 <= a <= b]. *)
Definition slice (a b : nat) (bs : list byte) : list byte :=
  firstn (b - a) (skipn a bs).

(** [int.from_bytes(bs, byteorder='little')]; [signed] defaults to [False]. *)
Fixpoint from_bytes_little (bs : list byte) : Z :=
  match bs with
  | [] => 0
  | b :: rest => byte_to_Z b + 256 * from_bytes_little rest
  end.

(** The two's-complement reading of the same bytes:
    [int.from_bytes(bs, byteorder='little', signed=True)]. *)
Definition from_bytes_little_signed (bs : list byte) : Z :=
  let u := from_bytes_little bs in
  let w := 2 ^ (8 * Z.of_nat (List.length bs)) in
  if 2 * u <? w then u else u - w.

Fixpoint little_bytes (n : nat) (v : Z) : list byte :=
  match n with
  | O => []
  | S k => byte_of_Z v :: little_bytes k (v / 256)
  end.

(** [v.to_bytes(n, byteorder='little', signed=True)]: [None] stands for
    Python's [OverflowError]. *)
Definition to_bytes_little_signed (n : nat) (v : Z) : option (list byte) :=
  let half := 2 ^ (8 * Z.of_nat n - 1) in
  if (- half <=? v) && (v <? half)
  then Some (little_bytes n (v mod 2 ^ (8 * Z.of_nat n)))
  else None.

(** [bs.decode('ascii')]: [None] stands for [UnicodeDecodeError]. *)
Definition decode_ascii (bs : list byte) : option string :=
  if forallb (fun b => byte_to_Z b <? 128) bs
  then Some (string_of_list_byte bs)
  else None.

(** ** Rounding *)

(** [round(q)]: the nearest integer, ties to the even one. *)
Definition py_round (q : Q) : Z :=
  let n := Qnum q in
  let d := Zpos (Qden q) in
  let f := n / d in
  let r := n mod d in
  match 2 * r ?= d with
  | Lt => f
  | Gt => f + 1
  | Eq => if Z.even f then f else f + 1
  end.

(** [round(q, ndigits)] for [ndigits >= 0]. *)
Definition py_round_digits (q : Q) (ndigits : nat) : Q :=
  let s := inject_Z (10 ^ Z.of_nat ndigits) in
  (inject_Z (py_round (q * s)) / s)%Q.

(** ** Calibration constants, assigned once in [__init__] *)

Definition EncCnt_per_deg : Q := 1919.6418578623391%Q.
Definition EncCnt_per_deg_per_s : Q := 42941.66%Q.
Definition EncCnt_per_deg_per_s2 : Q := 14.66%Q.
Definition _move_tol_deg : Q := 0.01%Q.
Definition _long_timeout_s : Z := 40.

(** ** The serial port *)

Inductive event : Type :=
| Tx (cmd : list byte)               (* port.write(cmd) *)
| Rx (size : nat) (data : list byte) (* port.read(size) returned data *)
| Waiting (count : nat).             (* port.inWaiting() returned count *)

(** [arrivals] is the device's behaviour: each call that looks at the input
    (a read or [inWaiting]) first receives the next batch of bytes; when the
    list is exhausted the device stays silent. *)
Record Port : Type := mkPort {
  timeout : Z;
  inbuf : list byte;
  arrivals : list (list byte);
  log : list event
}.

Definition deliver (p : Port) : Port :=
  match arrivals p with
  | [] => p
  | a :: rest => mkPort (timeout p) (inbuf p ++ a) rest (log p)
  end.

Definition port_write (cmd : list byte) (p : Port) : Port :=
  mkPort (timeout p) (inbuf p) (arrivals p) (log p ++ [Tx cmd]).

(** [port.read(size)] returns at most [size] bytes: fewer when the timeout
    expires first. *)
Definition port_read (size : nat) (p : Port) : list byte * Port :=
  let p1 := deliver p in
  let data := firstn size (inbuf p1) in
  (data,
   mkPort (timeout p1) (skipn size (inbuf p1)) (arrivals p1)
          (log p1 ++ [Rx size data])).

Definition port_inWaiting (p : Port) : nat * Port :=
  let p1 := deliver p in
  let k := List.length (inbuf p1) in
  (k, mkPort (timeout p1) (inbuf p1) (arrivals p1) (log p1 ++ [Waiting k])).

Definition port_set_timeout (t : Z) (p : Port) : Port :=
  mkPort t (inbuf p) (arrivals p) (log p).

(** [serial.Serial(port=which_port, baudrate=115200, timeout=1)] on a line
    whose device will deliver [script]. *)
Definition open_port (script : list (list byte)) : Port :=
  mkPort 1 [] script [].

(** ** The controller's attributes *)

Record Controller : Type := mkController {
  verbose : bool;
  port : Port;
  model_number : string;
  type_ : Z;
  serial_number : Z;
  firmware_v : Z;
  hardware_v : Z;
  enable : bool;
  _homed : bool;
  ch_id_bytes : list byte;
  position_counts : Z;
  position_deg : Q;
  max_velocity : Q;
  acceleration : Q;
  _moving : bool;
  _target_position_deg : Q
}.

Definition set_verbose (v : bool) (c : Controller) : Controller :=
  mkController v (port c) (model_number c) (type_ c) (serial_number c)
    (firmware_v c) (hardware_v c) (enable c) (_homed c) (ch_id_bytes c)
    (position_counts c) (position_deg c) (max_velocity c) (acceleration c)
    (_moving c) (_target_position_deg c).

Definition set_port (p : Port) (c : Controller) : Controller :=
  mkController (verbose c) p (model_number c) (type_ c) (serial_number c)
    (firmware_v c) (hardware_v c) (enable c) (_homed c) (ch_id_bytes c)
    (position_counts c) (position_deg c) (max_velocity c) (acceleration c)
    (_moving c) (_target_position_deg c).

Definition set_info (m : string) (t s f h : Z) (c : Controller) : Controller :=
  mkController (verbose c) (port c) m t s f h (enable c) (_homed c)
    (ch_id_bytes c) (position_counts c) (position_deg c) (max_velocity c)
    (acceleration c) (_moving c) (_target_position_deg c).

Definition set_enable_attr (e : bool) (c : Controller) : Controller :=
  mkController (verbose c) (port c) (model_number c) (type_ c)
    (serial_number c) (firmware_v c) (hardware_v c) e (_homed c)
    (ch_id_bytes c) (position_counts c) (position_deg c) (max_velocity c)
    (acceleration c) (_moving c) (_target_position_deg c).

Definition set_homed (h : bool) (c : Controller) : Controller :=
  mkController (verbose c) (port c) (model_number c) (type_ c)
    (serial_number c) (firmware_v c) (hardware_v c) (enable c) h
    (ch_id_bytes c) (position_counts c) (position_deg c) (max_velocity c)
    (acceleration c) (_moving c) (_target_position_deg c).

Definition set_position (ch : list byte) (n : Z) (d : Q) (c : Controller)
  : Controller :=
  mkController (verbose c) (port c) (model_number c) (type_ c)
    (serial_number c) (firmware_v c) (hardware_v c) (enable c) (_homed c)
    ch n d (max_velocity c) (acceleration c) (_moving c)
    (_target_position_deg c).

Definition set_max_velocity (v : Q) (c : Controller) : Controller :=
  mkController (verbose c) (port c) (model_number c) (type_ c)
    (serial_number c) (firmware_v c) (hardware_v c) (enable c) (_homed c)
    (ch_id_bytes c) (position_counts c) (position_deg c) v (acceleration c)
    (_moving c) (_target_position_deg c).

Definition set_acceleration (a : Q) (c : Controller) : Controller :=
  mkController (verbose c) (port c) (model_number c) (type_ c)
    (serial_number c) (firmware_v c) (hardware_v c) (enable c) (_homed c)
    (ch_id_bytes c) (position_counts c) (position_deg c) (max_velocity c) a
    (_moving c) (_target_position_deg c).

Definition set_moving (m : bool) (c : Controller) : Controller :=
  mkController (verbose c) (port c) (model_number c) (type_ c)
    (serial_number c) (firmware_v c) (hardware_v c) (enable c) (_homed c)
    (ch_id_bytes c) (position_counts c) (position_deg c) (max_velocity c)
    (acceleration c) m (_target_position_deg c).

Definition set_target (t : Q) (c : Controller) : Controller :=
  mkController (verbose c) (port c) (model_number c) (type_ c)
    (serial_number c) (firmware_v c) (hardware_v c) (enable c) (_homed c)
    (ch_id_bytes c) (position_counts c) (position_deg c) (max_velocity c)
    (acceleration c) (_moving c) t.

(** ** Outcomes and the monad of the methods *)

Inductive exn : Type :=
| AssertionError
| IndexError
| UnicodeDecodeError
| OverflowError
| IOError.

Inductive outcome (A : Type) : Type :=
| Val (a : A)
| Exc (e : exn)
| OutOfFuel.

Arguments Val {A} a.
Arguments Exc {A} e.
Arguments OutOfFuel {A}.

(** A method takes the object to an outcome and the object as the method left
    it: an exception does not undo the assignments made before it. *)
Definition M (A : Type) : Type := Controller -> outcome A * Controller.

Definition ret {A} (a : A) : M A := fun c => (Val a, c).

Definition bind {A B} (m : M A) (k : A -> M B) : M B :=
  fun c =>
    match m c with
    | (Val a, c1) => k a c1
    | (Exc e, c1) => (Exc e, c1)
    | (OutOfFuel, c1) => (OutOfFuel, c1)
    end.

Definition raise {A} (e : exn) : M A := fun c => (Exc e, c).
Definition out_of_fuel {A} : M A := fun c => (OutOfFuel, c).
Definition gets {A} (f : Controller -> A) : M A := fun c => (Val (f c), c).
Definition modify (f : Controller -> Controller) : M unit :=
  fun c => (Val tt, f c).
Definition py_assert (b : bool) : M unit :=
  if b then ret tt else raise AssertionError.
Definition on_port {A} (f : Port -> A * Port) : M A :=
  fun c => let '(a, p) := f (port c) in (Val a, set_port p c).
Definition lift_option {A} (e : exn) (o : option A) : M A :=
  match o with
  | Some a => ret a
  | None => raise e
  end.

Declare Scope py_scope.
Delimit Scope py_scope with py.
Notation "x <- m ;; k" := (bind m (fun x => k))
  (at level 100, m at next level, right associativity) : py_scope.
Notation "m ;; k" := (bind m (fun _ => k))
  (at level 100, right associativity) : py_scope.
Local Open Scope py_scope.

(** A method that ignores its response receives [None] from [_send]. *)
Definition bytes_of (response : option (list byte)) : list byte :=
  match response with
  | Some bs => bs
  | None => []
  end.

(** [bs[i]], an [int] in Python. *)
Definition index (bs : list byte) (i : nat) : M Z :=
  lift_option IndexError (option_map byte_to_Z (nth_error bs i)).

Definition Qbetween (lo x hi : Q) : bool := Qle_bool lo x && Qle_bool x hi.

(** ** The methods of [Controller] *)

Definition _send (cmd : list byte) (response_bytes : option nat)
  : M (option (list byte)) :=
  on_port (fun p => (tt, port_write cmd p)) ;;
  response <-
    match response_bytes with
    | Some n => r <- on_port (port_read n) ;; ret (Some r)
    | None => ret None
    end ;;
  waiting <- on_port port_inWaiting ;;
  py_assert (Nat.eqb waiting 0) ;;
  ret response.

Definition _get_info : M (list byte) :=
  let cmd := [x05; x00; x00; x00; x50; x01] in
  r <- _send cmd (Some 90%nat) ;;
  let response := bytes_of r in
  model <- lift_option UnicodeDecodeError
             (decode_ascii (slice 10 18 response)) ;;
  modify (set_info model
            (from_bytes_little (slice 18 20 response))
            (from_bytes_little (slice 6 10 response))
            (from_bytes_little (slice 20 24 response))
            (from_bytes_little (slice 84 86 response))) ;;
  ret response.

Definition _get_enable : M bool :=
  let cmd := [x11; x02; x00; x00; x50; x01] in
  r <- _send cmd (Some 6%nat) ;;
  let response := bytes_of r in
  b <- index response 3 ;;
  py_assert ((b =? 1) || (b =? 2)) ;;
  (if b =? 1 then modify (set_enable_attr true) else ret tt) ;;
  (if b =? 2 then modify (set_enable_attr false) else ret tt) ;;
  gets enable.

Definition _set_enable (enable : bool) : M unit :=
  let cmd := if enable
             then [x10; x02; x00; x01; x50; x01]
             else [x10; x02; x00; x02; x50; x01] in
  _send cmd None ;;
  e <- _get_enable ;;
  py_assert (Bool.eqb e enable).

Definition _get_homed_status : M bool :=
  let cmd := [x29; x04; x00; x00; x50; x01] in
  r <- _send cmd (Some 12%nat) ;;
  let status_bits := skipn 8 (bytes_of r) in
  b <- index status_bits 1 ;;
  modify (set_homed (negb (Z.land b 4 =? 0))) ;;
  gets _homed.

Definition get_position_deg : M Q :=
  let cmd := [x11; x04; x00; x00; x50; x01] in
  r <- _send cmd (Some 12%nat) ;;
  let response := bytes_of r in
  let counts := from_bytes_little (slice 8 12 response) in
  modify (set_position (slice 6 8 response) counts
            (inject_Z counts / EncCnt_per_deg)%Q) ;;
  gets position_deg.

(** One pass of the body that both polling loops share: the position query
    with [verbose] switched off around it. *)
Definition quiet_position : M unit :=
  v <- gets verbose ;;
  modify (set_verbose false) ;;
  get_position_deg ;;
  modify (set_verbose v).

Fixpoint home_loop (fuel : nat) : M unit :=
  match fuel with
  | O => out_of_fuel
  | S fuel' =>
      quiet_position ;;
      pos <- gets position_deg ;;
      if Qeq_bool (py_round_digits pos 2) 0 then ret tt else home_loop fuel'
  end.

Definition _home (fuel : nat) : M unit :=
  let cmd := [x43; x04; x00; x00; x50; x01] in
  t <- gets (fun c => timeout (port c)) ;;
  on_port (fun p => (tt, port_set_timeout _long_timeout_s p)) ;;
  _send cmd (Some 6%nat) ;;
  on_port (fun p => (tt, port_set_timeout t p)) ;;
  home_loop fuel.

Definition _get_velocity_parameters : M (Q * Q) :=
  let cmd := [x14; x04; x00; x00; x50; x01] in
  r <- _send cmd (Some 20%nat) ;;
  let response := bytes_of r in
  modify (set_max_velocity
    (inject_Z (from_bytes_little (slice 16 20 response))
       / EncCnt_per_deg_per_s)%Q) ;;
  modify (set_acceleration
    (inject_Z (from_bytes_little (slice 12 16 response))
       / EncCnt_per_deg_per_s2)%Q) ;;
  v <- gets max_velocity ;;
  a <- gets acceleration ;;
  ret (v, a).

(** [bytes([b'\x50'[0] | b'\x80'[0]])], the destination byte of a frame that
    carries a payload. *)
Definition destination_byte : list byte :=
  [byte_of_Z (Z.lor (byte_to_Z x50) (byte_to_Z x80))].

Definition _set_velocity_parameters (max_velocity' acceleration' : Q)
  : M unit :=
  py_assert (Qbetween 0 max_velocity' 25) ;;
  py_assert (Qbetween 0 acceleration' 25) ;;
  let max_velocity_counts := py_round (max_velocity' * EncCnt_per_deg_per_s) in
  let acceleration_counts := py_round (acceleration' * EncCnt_per_deg_per_s2) in
  let d := destination_byte in
  let min_velocity_counts := 0 in
  m <- lift_option OverflowError
         (to_bytes_little_signed 4 min_velocity_counts) ;;
  v <- lift_option OverflowError
         (to_bytes_little_signed 4 max_velocity_counts) ;;
  a <- lift_option OverflowError
         (to_bytes_little_signed 4 acceleration_counts) ;;
  ch <- gets ch_id_bytes ;;
  let cmd := [x13; x04; x0e; x00] ++ d ++ [x01] ++ ch ++ m ++ a ++ v in
  _send cmd None ;;
  _get_velocity_parameters ;;
  mv <- gets max_velocity ;;
  py_assert (Qeq_bool (py_round_digits mv 1) max_velocity') ;;
  ac <- gets acceleration ;;
  py_assert (Qeq_bool (py_round_digits ac 1) acceleration').

Definition identify : M unit :=
  let cmd := [x23; x02; x00; x00; x50; x01] in
  _send cmd None ;;
  ret tt.

Fixpoint finish_loop (fuel : nat) : M unit :=
  match fuel with
  | O => out_of_fuel
  | S fuel' =>
      quiet_position ;;
      target <- gets _target_position_deg ;;
      let tol := _move_tol_deg in
      pos <- gets position_deg ;;
      if Qbetween (target - tol) pos (target + tol)
      then ret tt
      else finish_loop fuel'
  end.

Definition _finish_move (fuel : nat) : M unit :=
  moving <- gets _moving ;;
  if negb moving then ret tt else
  t <- gets (fun c => timeout (port c)) ;;
  on_port (fun p => (tt, port_set_timeout _long_timeout_s p)) ;;
  on_port (port_read 20) ;;
  on_port (fun p => (tt, port_set_timeout t p)) ;;
  finish_loop fuel ;;
  modify (set_moving false).

(** The frame of MGMSG_MOT_MOVE_ABSOLUTE, as [move_deg] assembles it. *)
Definition move_absolute_frame (ch p : list byte) : list byte :=
  [x53; x04; x06; x00] ++ destination_byte ++ [x01] ++ ch ++ p.

Definition move_deg (fuel : nat) (move_deg' : Q) (relative block : bool)
  : M unit :=
  moving <- gets _moving ;;
  (if moving then _finish_move fuel else ret tt) ;;
  pos <- gets position_deg ;;
  let move_deg' := if relative then (pos + move_deg')%Q else move_deg' in
  py_assert (Qbetween 0 move_deg' 359.99) ;;
  let position_counts' := py_round (move_deg' * EncCnt_per_deg) in
  p <- lift_option OverflowError
         (to_bytes_little_signed 4 position_counts') ;;
  ch <- gets ch_id_bytes ;;
  let cmd := move_absolute_frame ch p in
  _send cmd None ;;
  modify (set_moving true) ;;
  modify (set_target move_deg') ;;
  if block then _finish_move fuel else ret tt.

(** The object before [__init__] has assigned anything but [verbose] and
    [port]; the other attributes do not exist yet in Python, and are read by
    no method before they are assigned. *)
Definition unassigned (verbose' : bool) (p : Port) : Controller :=
  mkController verbose' p EmptyString 0 0 0 0 false false [] 0 0%Q 0%Q 0%Q
    false 0%Q.

Definition expected_model_number : string :=
  string_of_list_byte [x4b; x44; x43; x31; x30; x31; x00; x00].

(** [Controller(which_port, verbose=verbose')]: [which_port] is [None] when
    the port cannot be opened, and otherwise the device's behaviour on it. *)
Definition __init__ (fuel : nat) (which_port : option (list (list byte)))
    (verbose' : bool) : outcome unit * Controller :=
  match which_port with
  | None => (Exc IOError, unassigned verbose' (open_port []))
  | Some script =>
      (_get_info ;;
       m <- gets model_number ;;
       py_assert (String.eqb m expected_model_number) ;;
       f <- gets firmware_v ;;
       py_assert (f =? 131592) ;;
       _set_enable true ;;
       _get_homed_status ;;
       h <- gets _homed ;;
       (if negb h then _home fuel else ret tt) ;;
       get_position_deg ;;
       _set_velocity_parameters 25 25 ;;
       modify (set_moving false))
      (unassigned verbose' (open_port script))
  end.

(** [close] leaves the model's port as it is: [port.close()] sends nothing. *)
Definition close : M unit := ret tt.

(** ** Vocabulary of the properties *)

(** The position query, MGMSG_MOT_REQ_POSCOUNTER. *)
Definition poll_frame : list byte := [x11; x04; x00; x00; x50; x01].

(** The tolerance test of the loop of [_finish_move], on a position and a
    target. *)
Definition within_tolerance (pos target : Q) : bool :=
  Qbetween (target - _move_tol_deg) pos (target + _move_tol_deg).

(** An event of a poll: the only frame written is the position query. *)
Definition poll_event (e : event) : Prop :=
  match e with
  | Tx cmd => cmd = poll_frame
  | _ => True
  end.

(** The object as [_finish_move] leaves it when it enters its loop: the
    completion message of the move (up to 20 bytes) has been read under the
    long timeout, and the timeout restored. *)
Definition loop_entry (c : Controller) : Controller :=
  set_port
    (port_set_timeout (timeout (port c))
       (snd (port_read 20 (port_set_timeout _long_timeout_s (port c)))))
    c.

(** A position-counter response that reports [counts] on channel 1. *)
Definition position_response (counts : Z) : list byte :=
  [x12; x04; x06; x00; x81; x50; x01; x00] ++ little_bytes 4 counts.

(** A device that answers nothing to the first [n] position queries and then
    reports 19196 counts (within tolerance of 10 degrees). *)
Fixpoint slow_device (n : nat) : list (list byte) :=
  match n with
  | O => [position_response 19196; []]
  | S k => [] :: [] :: slow_device k
  end.

(** A controller with a move to 10 degrees outstanding, on the line of a
    device that delivers [script]. *)
Definition pending_move (script : list (list byte)) : Controller :=
  set_target 10 (set_moving true (unassigned true (open_port script))).

(** The first statement of [move_deg]: a pending move is finished first. *)
Definition settle_first (fuel : nat) : M unit :=
  moving <- gets _moving ;;
  if moving then _finish_move fuel else ret tt.

(** The absolute target of [move_deg(move_deg', relative)] on the object
    [c]. *)
Definition target_of (move_deg' : Q) (relative : bool) (c : Controller) : Q :=
  if relative then (position_deg c + move_deg')%Q else move_deg'.

(** An idle controller at 0 degrees with the channel handle 01 00 captured,
    on the line of a device that delivers [script]. *)
Definition ready (script : list (list byte)) : Controller :=
  set_position [x01; x00] 0 0 (unassigned true (open_port script)).

(** The velocity query, MGMSG_MOT_REQ_VELPARAMS. *)
Definition velocity_query : list byte := [x14; x04; x00; x00; x50; x01].

(** A velocity-parameters response that reports the given counts on
    channel 1: header, channel, minimum velocity 0, acceleration, maximum
    velocity. *)
Definition velocity_response (acceleration_counts max_velocity_counts : Z)
  : list byte :=
  [x15; x04; x0e; x00; x81; x50; x01; x00; x00; x00; x00; x00]
    ++ little_bytes 4 acceleration_counts
    ++ little_bytes 4 max_velocity_counts.

(** The identity request, MGMSG_HW_REQ_INFO. *)
Definition info_request : list byte := [x05; x00; x00; x00; x50; x01].

(** The bytes of the model number the calibration was made for,
    ['KDC101\x00\x00']. *)
Definition expected_model_bytes : list byte :=
  [x4b; x44; x43; x31; x30; x31; x00; x00].

(** The frame of MGMSG_MOT_SET_VELPARAMS, as [_set_velocity_parameters]
    assembles it from the channel handle and the three 4-byte fields. *)
Definition velocity_frame (ch m a v : list byte) : list byte :=
  [x13; x04; x0e; x00] ++ destination_byte ++ [x01] ++ ch ++ m ++ a ++ v.

(** The values [_get_velocity_parameters] stores from a response. *)
Definition max_velocity_of (response : list byte) : Q :=
  (inject_Z (from_bytes_little (slice 16 20 response))
   / EncCnt_per_deg_per_s)%Q.

Definition acceleration_of (response : list byte) : Q :=
  (inject_Z (from_bytes_little (slice 12 16 response))
   / EncCnt_per_deg_per_s2)%Q.

(** The two closing assertions of [_set_velocity_parameters]. *)
Definition reread_matches (response : list byte) (max_velocity' acceleration' : Q)
  : bool :=
  Qeq_bool (py_round_digits (max_velocity_of response) 1) max_velocity'
  && Qeq_bool (py_round_digits (acceleration_of response) 1) acceleration'.

(** The logs in which every frame written is followed, after the read of
    its response if it has one, by a look at the input buffer that found it
    empty.  A read on its own is the one of [_finish_move]. *)
Inductive checked : list event -> Prop :=
| checked_nil : checked []
| checked_send (cmd : list byte) (rest : list event) :
    checked rest -> checked (Tx cmd :: Waiting 0 :: rest)
| checked_exchange (cmd : list byte) (n : nat) (data : list byte)
    (rest : list event) :
    (List.length data <= n)%nat ->
    checked rest -> checked (Tx cmd :: Rx n data :: Waiting 0 :: rest)
| checked_read (n : nat) (data : list byte) (rest : list event) :
    checked rest -> checked (Rx n data :: rest).

(** A method all of whose exchanges were checked whenever it returns. *)
Definition checks {A : Type} (m : M A) : Prop :=
  forall c a c',
    m c = (Val a, c') ->
    exists seg, log (port c') = log (port c) ++ seg /\ checked seg.

(** The frames written, in order. *)
Fixpoint frames (l : list event) : list (list byte) :=
  match l with
  | [] => []
  | Tx cmd :: rest => cmd :: frames rest
  | _ :: rest => frames rest
  end.

(** A KDC101 with firmware 131592, enabled, homed, at 0 degrees, that
    applies the velocity profile it is sent: the batches of bytes it
    delivers during [__init__], one for each read and each [inWaiting]. *)
Definition cooperative_device : list (list byte) :=
  [ [x06; x00; x54; x00; x81; x50; x15; xcd; x5b; x07]
      ++ expected_model_bytes ++ [x10; x00; x08; x02; x02; x00]
      ++ repeat x00 66;
    [];
    [];
    [x12; x02; x01; x01; x81; x50]; [];
    [x2a; x04; x06; x00; x81; x50; x01; x00; x00; x04; x00; x00]; [];
    position_response 0; [];
    [];
    velocity_response 366 1073542; [] ].

(** The controller that [__init__] returns on the line of the cooperative
    device, which goes on to deliver [later]. *)
Definition connected (later : list (list byte)) : Controller :=
  snd (__init__ 0 (Some (cooperative_device ++ later)) true).

(** A move-completed message, MGMSG_MOT_MOVE_COMPLETED: 20 bytes. *)
Definition move_completed : list byte :=
  [x64; x04; x0e; x00; x81; x50; x01; x00] ++ repeat x00 12.

(** The other request frames. *)
Definition enable_query : list byte := [x11; x02; x00; x00; x50; x01].
Definition status_query : list byte := [x29; x04; x00; x00; x50; x01].
Definition home_frame : list byte := [x43; x04; x00; x00; x50; x01].
Definition identify_frame : list byte := [x23; x02; x00; x00; x50; x01].

(** The frame of MGMSG_MOD_SET_CHANENABLESTATE for [enable]. *)
Definition enable_frame (enable' : bool) : list byte :=
  if enable' then [x10; x02; x00; x01; x50; x01]
  else [x10; x02; x00; x02; x50; x01].

(** The bytes a read of [n] bytes returns on the object [c]: the first [n]
    of what the port holds once the next batch has arrived. *)
Definition reply (n : nat) (c : Controller) : list byte :=
  firstn n (inbuf (deliver (port c))).

(** A property of the object that a method keeps, whatever its outcome. *)
Definition preserves {A : Type} (I : Controller -> Prop) (m : M A) : Prop :=
  forall c, I c -> I (snd (m c)).

(** A property that does not look at the port. *)
Definition blind (I : Controller -> Prop) : Prop :=
  forall c p, I c -> I (set_port p c).

(** The identity of the device, as [_get_info] stores it. *)
Definition identity (c : Controller) : string * Z * Z * Z * Z :=
  (model_number c, type_ c, serial_number c, firmware_v c, hardware_v c).

(** The position in degrees is the position in counts over the calibration
    constant, and the counts are those of an unsigned 32-bit field. *)
Definition position_consistent (c : Controller) : Prop :=
  (position_deg c == inject_Z (position_counts c) / EncCnt_per_deg)%Q
  /\ 0 <= position_counts c < 2 ^ 32.

(** * Properties *)

(** ** The equations of the transport-facing methods *)

Lemma send_run (cmd : list byte) (response_bytes : option nat) (c : Controller) :
  _send cmd response_bytes c =
  let p0 := port_write cmd (port c) in
  let rp := match response_bytes with
            | Some n => (Some (fst (port_read n p0)), snd (port_read n p0))
            | None => (None, p0)
            end in
  let kp := port_inWaiting (snd rp) in
  (if Nat.eqb (fst kp) 0 then Val (fst rp) else Exc AssertionError,
   set_port (snd kp) c).
Proof.
  destruct response_bytes as [n|]; unfold _send, bind, on_port, py_assert, ret, raise; cbn.
  - destruct (Nat.eqb _ 0); reflexivity.
  - destruct (Nat.eqb _ 0); reflexivity.
Qed.

Lemma get_position_deg_run (c : Controller) :
  get_position_deg c =
  let p1 := snd (port_read 12 (port_write poll_frame (port c))) in
  let response := fst (port_read 12 (port_write poll_frame (port c))) in
  let kp := port_inWaiting p1 in
  let counts := from_bytes_little (slice 8 12 response) in
  let deg := (inject_Z counts / EncCnt_per_deg)%Q in
  if Nat.eqb (fst kp) 0
  then (Val deg, set_position (slice 6 8 response) counts deg (set_port (snd kp) c))
  else (Exc AssertionError, set_port (snd kp) c).
Proof.
  unfold get_position_deg, bind. rewrite send_run. cbn -[from_bytes_little slice EncCnt_per_deg Qdiv inject_Z].
  destruct (Nat.eqb _ 0); reflexivity.
Qed.

Lemma log_deliver (p : Port) : log (deliver p) = log p.
Proof. unfold deliver. destruct (arrivals p); reflexivity. Qed.

Lemma quiet_position_run (c : Controller) :
  quiet_position c =
  let r := get_position_deg (set_verbose false c) in
  match fst r with
  | Val _ => (Val tt, set_verbose (verbose c) (snd r))
  | Exc e => (Exc e, snd r)
  | OutOfFuel => (OutOfFuel, snd r)
  end.
Proof.
  unfold quiet_position, bind, gets, modify.
  destruct (get_position_deg (set_verbose false c)) as [[q|e|] c1]; reflexivity.
Qed.

(** What one poll does, whatever its outcome. *)
Lemma quiet_position_spec (c : Controller) :
  exists response k,
    let c' := snd (quiet_position c) in
    log (port c') = log (port c) ++ [Tx poll_frame; Rx 12 response; Waiting k]
    /\ _moving c' = _moving c
    /\ _target_position_deg c' = _target_position_deg c
    /\ ch_id_bytes c' = (if Nat.eqb k 0 then slice 6 8 response else ch_id_bytes c)
    /\ (k = 0%nat ->
        fst (quiet_position c) = Val tt
        /\ verbose c' = verbose c
        /\ inbuf (port c') = []
        /\ position_deg c'
           = (inject_Z (from_bytes_little (slice 8 12 response)) / EncCnt_per_deg)%Q)
    /\ (k <> 0%nat -> fst (quiet_position c) = Exc AssertionError).
Proof.
  rewrite quiet_position_run, get_position_deg_run.
  set (p0 := port_write poll_frame (port (set_verbose false c))).
  exists (fst (port_read 12 p0)), (fst (port_inWaiting (snd (port_read 12 p0)))).
  cbv zeta.
  destruct (Nat.eqb (fst (port_inWaiting (snd (port_read 12 p0)))) 0) eqn:E;
    cbn [fst snd];
    (split; [cbn; rewrite !log_deliver; cbn; rewrite <- !app_assoc; reflexivity|]);
    (split; [reflexivity|]); (split; [reflexivity|]); (split; [reflexivity|]).
  - apply Nat.eqb_eq in E. split; [intros _|intros K; contradiction].
    split; [reflexivity|]. split; [reflexivity|]. split; [|reflexivity].
    cbn in E |- *. apply length_zero_iff_nil in E. exact E.
  - apply Nat.eqb_neq in E. split; [intros K; contradiction|reflexivity].
Qed.

(** ** The settle-poll loop of [_finish_move] *)

Lemma finish_loop_step (fuel : nat) (c : Controller) :
  finish_loop (S fuel) c =
  match fst (quiet_position c) with
  | Val _ =>
      let c1 := snd (quiet_position c) in
      if within_tolerance (position_deg c1) (_target_position_deg c1)
      then (Val tt, c1)
      else finish_loop fuel c1
  | Exc e => (Exc e, snd (quiet_position c))
  | OutOfFuel => (OutOfFuel, snd (quiet_position c))
  end.
Proof.
  cbn [finish_loop]. unfold bind at 1.
  destruct (quiet_position c) as [[u|e|] c1]; try reflexivity.
  unfold bind, gets, within_tolerance. cbn [fst snd].
  destruct (Qbetween _ _ _); reflexivity.
Qed.

Lemma finish_loop_polls (fuel : nat) :
  forall c, exists seg,
    log (port (snd (finish_loop fuel c))) = log (port c) ++ seg
    /\ Forall poll_event seg.
Proof.
  induction fuel as [|fuel IH]; intros c.
  - exists []. split; [cbn; now rewrite app_nil_r | constructor].
  - rewrite finish_loop_step.
    destruct (quiet_position_spec c) as (response & k & Hlog & _).
    cbv zeta in Hlog.
    assert (Hseg : Forall poll_event [Tx poll_frame; Rx 12 response; Waiting k])
      by (repeat constructor).
    destruct (fst (quiet_position c)) as [u|e|];
      try (eexists; split; [exact Hlog | exact Hseg]).
    cbv zeta.
    destruct (within_tolerance _ _);
      try (eexists; split; [exact Hlog | exact Hseg]).
    destruct (IH (snd (quiet_position c))) as (seg & Hseg' & Hall).
    exists ([Tx poll_frame; Rx 12 response; Waiting k] ++ seg). split.
    + rewrite Hseg', Hlog, <- app_assoc. reflexivity.
    + apply Forall_app. split; assumption.
Qed.

(** A loop that ends normally ends on a poll whose position passed the
    tolerance test against the target. *)
Lemma finish_loop_settled (fuel : nat) :
  forall c c',
    finish_loop fuel c = (Val tt, c') ->
    within_tolerance (position_deg c') (_target_position_deg c) = true
    /\ _moving c' = _moving c
    /\ _target_position_deg c' = _target_position_deg c
    /\ inbuf (port c') = []
    /\ exists earlier response,
         log (port c')
         = log (port c) ++ earlier ++ [Tx poll_frame; Rx 12 response; Waiting 0]
         /\ position_deg c'
            = (inject_Z (from_bytes_little (slice 8 12 response))
               / EncCnt_per_deg)%Q.
Proof.
  induction fuel as [|fuel IH]; intros c c' H.
  - discriminate H.
  - rewrite finish_loop_step in H.
    destruct (quiet_position_spec c) as (response & k & Hlog & Hmov & Htgt & _ & Hok & Hbad).
    cbv zeta in *.
    destruct (Nat.eq_dec k 0) as [K|K].
    2:{ rewrite (Hbad K) in H. discriminate H. }
    destruct (Hok K) as (Hval & _ & Hbuf & Hpos). rewrite Hval in H.
    destruct (within_tolerance _ _) eqn:T.
    + injection H as <-. rewrite Htgt in T. subst k.
      repeat (split; [assumption|]).
      exists [], response. split; assumption.
    + destruct (IH _ _ H) as (T' & Hmov' & Htgt' & Hbuf' & earlier & response' & Hlog' & Hpos').
      rewrite Htgt in T', Htgt'. rewrite Hmov in Hmov'.
      repeat (split; [assumption|]).
      exists ([Tx poll_frame; Rx 12 response; Waiting k] ++ earlier), response'.
      split; [|assumption].
      rewrite Hlog', Hlog, <- !app_assoc. reflexivity.
Qed.

Lemma finish_move_run (fuel : nat) (c : Controller) :
  _moving c = true ->
  _finish_move fuel c =
  match fst (finish_loop fuel (loop_entry c)) with
  | Val _ => (Val tt, set_moving false (snd (finish_loop fuel (loop_entry c))))
  | Exc e => (Exc e, snd (finish_loop fuel (loop_entry c)))
  | OutOfFuel => (OutOfFuel, snd (finish_loop fuel (loop_entry c)))
  end.
Proof.
  intros Hm. unfold _finish_move, bind, gets, on_port, modify. rewrite Hm.
  unfold port_read. cbn [negb fst snd port set_port].
  change (finish_loop fuel _) with (finish_loop fuel (loop_entry c)).
  destruct (finish_loop fuel (loop_entry c)) as [[u|e|] c1]; reflexivity.
Qed.

Lemma loop_entry_log (c : Controller) :
  log (port (loop_entry c))
  = log (port c)
    ++ [Rx 20 (fst (port_read 20 (port_set_timeout _long_timeout_s (port c))))].
Proof. cbn. rewrite log_deliver. reflexivity. Qed.

(** Whatever its outcome, [_finish_move] writes nothing but position
    queries. *)
Lemma finish_move_polls (fuel : nat) (c : Controller) :
  exists seg,
    log (port (snd (_finish_move fuel c))) = log (port c) ++ seg
    /\ Forall poll_event seg.
Proof.
  destruct (_moving c) eqn:Hm.
  - rewrite (finish_move_run fuel c Hm).
    destruct (finish_loop_polls fuel (loop_entry c)) as (seg & Hlog & Hall).
    rewrite loop_entry_log in Hlog.
    eexists (_ :: seg). split.
    + destruct (fst (finish_loop fuel (loop_entry c))); cbn [snd];
        try (cbn [port set_moving]); rewrite Hlog, <- app_assoc; reflexivity.
    + constructor; [exact I | exact Hall].
  - exists []. unfold _finish_move, bind, gets. rewrite Hm. cbn.
    split; [now rewrite app_nil_r | constructor].
Qed.

Lemma finish_move_settled (fuel : nat) (c c' : Controller) :
  _moving c = true ->
  _finish_move fuel c = (Val tt, c') ->
  within_tolerance (position_deg c') (_target_position_deg c) = true
  /\ _moving c' = false
  /\ _target_position_deg c' = _target_position_deg c
  /\ inbuf (port c') = []
  /\ exists earlier response,
       log (port c')
       = log (port c) ++ earlier ++ [Tx poll_frame; Rx 12 response; Waiting 0]
       /\ position_deg c'
          = (inject_Z (from_bytes_little (slice 8 12 response))
             / EncCnt_per_deg)%Q.
Proof.
  intros Hm H. rewrite (finish_move_run fuel c Hm) in H.
  destruct (finish_loop fuel (loop_entry c)) as [[[]|e|] c1] eqn:L;
    cbn [fst snd] in H; try discriminate H.
  injection H as <-.
  destruct (finish_loop_settled fuel _ _ L)
    as (T & _ & Htgt & Hbuf & earlier & response & Hlog & Hpos).
  rewrite loop_entry_log in Hlog.
  split; [exact T|]. split; [reflexivity|]. split; [exact Htgt|].
  split; [exact Hbuf|].
  eexists (_ :: earlier), response. split; [|exact Hpos].
  cbn [port set_moving]. rewrite Hlog, <- app_assoc. reflexivity.
Qed.

Lemma within_tolerance_spec (pos target : Q) :
  within_tolerance pos target = true ->
  (target - 0.01 <= pos)%Q /\ (pos <= target + 0.01)%Q.
Proof.
  unfold within_tolerance, Qbetween, _move_tol_deg. intros H.
  apply andb_true_iff in H. destruct H as [H1 H2].
  split; apply Qle_bool_iff; assumption.
Qed.

(** On a silent line the loop polls on, as long as the device reports a
    position away from the target. *)
Lemma finish_loop_slow_device (n : nat) :
  forall c,
    inbuf (port c) = [] ->
    arrivals (port c) = slow_device n ->
    _target_position_deg c = 10%Q ->
    fst (finish_loop n c) = OutOfFuel
    /\ fst (finish_loop (S n) c) = Val tt.
Proof.
  induction n as [|n IH]; intros c Hbuf Harr Htgt.
  - split; [reflexivity|].
    destruct c as [v [t ib ar lg] ? ? ? ? ? ? ? ? ? ? ? ? ? tg].
    cbn in Hbuf, Harr, Htgt. subst ib ar tg. vm_compute. reflexivity.
  - assert (Hq : fst (quiet_position c) = Val tt
                 /\ within_tolerance (position_deg (snd (quiet_position c)))
                      (_target_position_deg (snd (quiet_position c))) = false
                 /\ inbuf (port (snd (quiet_position c))) = []
                 /\ arrivals (port (snd (quiet_position c))) = slow_device n
                 /\ _target_position_deg (snd (quiet_position c)) = 10%Q).
    { destruct c as [v [t ib ar lg] ? ? ? ? ? ? ? ? ? ? ? ? ? tg].
      cbn in Hbuf, Harr, Htgt. subst ib ar tg.
      repeat split; reflexivity. }
    destruct Hq as (Hval & Hout & Hbuf' & Harr' & Htgt').
    destruct (IH _ Hbuf' Harr' Htgt') as [IH0 IH1].
    split.
    + rewrite finish_loop_step, Hval. cbv zeta. rewrite Hout. exact IH0.
    + rewrite finish_loop_step, Hval. cbv zeta. rewrite Hout. exact IH1.
Qed.

(** C9: [_finish_move] with no move outstanding ([_moving] false) returns at
    once, whatever the fuel: the outcome is a plain return and the object,
    its port and the port's log included, is the one it was given, so
    nothing was read or written. *)
Theorem finish_move_idle_noop (fuel : nat) (c : Controller) :
  _moving c = false ->
  _finish_move fuel c = (Val tt, c).
Proof.
  intros Hm. unfold _finish_move, bind, gets. rewrite Hm. reflexivity.
Qed.

Lemma finish_move_idle_noop_witness :
  _finish_move 0 (unassigned true (open_port [[x01]]))
  = (Val tt, unassigned true (open_port [[x01]])).
Proof. apply finish_move_idle_noop. reflexivity. Defined.

(** C2: when the settle-poll loop of a move ends, the position of the last
    query is within 0.01 degree of the stored target and [_moving] is
    cleared; the loop has no cap on its polls: for every [n] some device
    keeps it polling more than [n] times before it ends. *)
Theorem finish_move_postcondition :
  (forall fuel c c',
      _moving c = true ->
      _finish_move fuel c = (Val tt, c') ->
      (_target_position_deg c - 0.01 <= position_deg c')%Q
      /\ (position_deg c' <= _target_position_deg c + 0.01)%Q
      /\ _moving c' = false
      /\ exists earlier response,
           log (port c')
           = log (port c) ++ earlier
               ++ [Tx poll_frame; Rx 12 response; Waiting 0]
           /\ position_deg c'
              = (inject_Z (from_bytes_little (slice 8 12 response))
                 / EncCnt_per_deg)%Q)
  /\ (forall n, exists c,
         _moving c = true
         /\ fst (_finish_move n c) = OutOfFuel
         /\ fst (_finish_move (S n) c) = Val tt).
Proof.
  split.
  - intros fuel c c' Hm H.
    destruct (finish_move_settled fuel c c' Hm H)
      as (T & Hm' & _ & _ & Hlast).
    apply within_tolerance_spec in T. destruct T as [T1 T2].
    repeat (split; [assumption|]). exact Hlast.
  - intros n. exists (pending_move ([] :: slow_device n)).
    split; [reflexivity|].
    assert (Hm : _moving (pending_move ([] :: slow_device n)) = true)
      by reflexivity.
    destruct (finish_loop_slow_device n
                (loop_entry (pending_move ([] :: slow_device n))))
      as [H0 H1]; try reflexivity.
    split; rewrite (finish_move_run _ _ Hm).
    + rewrite H0. reflexivity.
    + rewrite H1. reflexivity.
Qed.

Lemma finish_move_postcondition_witness :
  let c := pending_move ([] :: slow_device 1) in
  let c' := snd (_finish_move 3 c) in
  (_target_position_deg c - 0.01 <= position_deg c')%Q
  /\ (position_deg c' <= _target_position_deg c + 0.01)%Q
  /\ _moving c' = false.
Proof.
  intros c c'.
  destruct (proj1 finish_move_postcondition 3%nat c c') as (H1 & H2 & H3 & _).
  - reflexivity.
  - vm_compute. reflexivity.
  - repeat split; assumption.
Defined.

(** ** Integers and their bytes *)

Lemma byte_to_of_Z (z : Z) : byte_to_Z (byte_of_Z z) = z mod 256.
Proof.
  unfold byte_to_Z, byte_of_Z.
  assert (Hr : 0 <= z mod 256 < 256) by (apply Z.mod_pos_bound; lia).
  destruct (Byte.of_N (Z.to_N (z mod 256))) as [b|] eqn:E.
  - apply Byte.to_of_N in E. rewrite E. lia.
  - apply Byte.of_N_None_iff in E. lia.
Qed.

Lemma length_little_bytes (n : nat) : forall v, List.length (little_bytes n v) = n.
Proof. induction n as [|n IH]; intros v; cbn; [reflexivity | now rewrite IH]. Qed.

Lemma from_little_bytes (n : nat) :
  forall v, from_bytes_little (little_bytes n v) = v mod 2 ^ (8 * Z.of_nat n).
Proof.
  induction n as [|n IH]; intros v.
  - cbn. now rewrite Z.mod_1_r.
  - cbn [little_bytes from_bytes_little]. rewrite byte_to_of_Z, IH.
    replace (8 * Z.of_nat (S n)) with (8 + 8 * Z.of_nat n) by lia.
    rewrite Z.pow_add_r by lia. change (2 ^ 8) with 256.
    rewrite Z.rem_mul_r by lia. reflexivity.
Qed.

(** A 32-bit value survives [to_bytes(4, 'little', signed=True)] followed by
    the signed reading of the bytes. *)
Lemma to_bytes_signed_32 (v : Z) :
  - 2 ^ 31 <= v < 2 ^ 31 ->
  exists p,
    to_bytes_little_signed 4 v = Some p
    /\ List.length p = 4%nat
    /\ from_bytes_little_signed p = v
    /\ (0 <= v -> from_bytes_little p = v).
Proof.
  intros Hv. exists (little_bytes 4 (v mod 2 ^ 32)).
  assert (Hm : 0 <= v mod 2 ^ 32 < 2 ^ 32) by (apply Z.mod_pos_bound; lia).
  assert (Hu : from_bytes_little (little_bytes 4 (v mod 2 ^ 32)) = v mod 2 ^ 32).
  { rewrite from_little_bytes. change (8 * Z.of_nat 4) with 32.
    apply Z.mod_small. exact Hm. }
  split; [|split; [|split]].
  - unfold to_bytes_little_signed. change (8 * Z.of_nat 4 - 1) with 31.
    change (8 * Z.of_nat 4) with 32.
    destruct (- 2 ^ 31 <=? v) eqn:E1; [|apply Z.leb_gt in E1; lia].
    destruct (v <? 2 ^ 31) eqn:E2; [|apply Z.ltb_ge in E2; lia].
    reflexivity.
  - apply length_little_bytes.
  - unfold from_bytes_little_signed. rewrite Hu, length_little_bytes.
    change (8 * Z.of_nat 4) with 32.
    destruct (Z_lt_le_dec v 0) as [Hneg|Hpos].
    + assert (E : v mod 2 ^ 32 = v + 2 ^ 32).
      { symmetry. apply (Z.mod_unique_pos v (2 ^ 32) (-1)); lia. }
      rewrite E. destruct (2 * (v + 2 ^ 32) <? 2 ^ 32) eqn:L.
      * apply Z.ltb_lt in L. lia.
      * lia.
    + rewrite Z.mod_small by lia.
      destruct (2 * v <? 2 ^ 32) eqn:L; [reflexivity|].
      apply Z.ltb_ge in L. lia.
  - intros Hpos. rewrite Hu. apply Z.mod_small. lia.
Qed.

(** ** Rounding *)

Lemma py_round_close (q : Q) :
  (q - (1 # 2) <= inject_Z (py_round q))%Q
  /\ (inject_Z (py_round q) <= q + (1 # 2))%Q.
Proof.
  destruct q as [n d]. unfold py_round, Qle, Qminus, Qplus, Qopp, inject_Z.
  cbn [Qnum Qden].
  pose proof (Z.div_mod n (Zpos d) ltac:(lia)) as E.
  pose proof (Z.mod_pos_bound n (Zpos d) ltac:(lia)) as B.
  set (f := n / Zpos d) in *. set (r := n mod Zpos d) in *.
  clearbody f r. rewrite ?Pos2Z.inj_mul.
  destruct (Z.compare_spec (2 * r) (Zpos d)) as [C|C|C].
  - destruct (Z.even f); split; rewrite E; lia.
  - split; rewrite E; lia.
  - split; rewrite E; lia.
Qed.

Lemma py_round_bounds (a b : Z) (q : Q) :
  (inject_Z a <= q)%Q -> (q <= inject_Z b)%Q -> a <= py_round q <= b.
Proof.
  destruct q as [n d]. unfold py_round, Qle, inject_Z. cbn [Qnum Qden].
  intros Ha Hb.
  pose proof (Z.div_mod n (Zpos d) ltac:(lia)) as E.
  pose proof (Z.mod_pos_bound n (Zpos d) ltac:(lia)) as B.
  set (f := n / Zpos d) in *. set (r := n mod Zpos d) in *.
  clearbody f r.
  assert (Hf : a <= f) by nia.
  assert (Hf' : f <= b) by nia.
  assert (Hr : f = b -> r = 0) by nia.
  destruct (Z.compare_spec (2 * r) (Zpos d)) as [C|C|C].
  - destruct (Z.even f); [lia|].
    destruct (Z.eq_dec f b) as [K|K]; [specialize (Hr K); lia | lia].
  - lia.
  - destruct (Z.eq_dec f b) as [K|K]; [specialize (Hr K); lia | lia].
Qed.

(** ** [move_deg] *)

Lemma move_deg_run (fuel : nat) (m : Q) (relative block : bool) (c : Controller) :
  move_deg fuel m relative block c =
  match settle_first fuel c with
  | (Val _, c1) =>
      let t := target_of m relative c1 in
      if Qbetween 0 t 359.99 then
        match to_bytes_little_signed 4 (py_round (t * EncCnt_per_deg)) with
        | Some p =>
            let r := _send (move_absolute_frame (ch_id_bytes c1) p) None c1 in
            match fst r with
            | Val _ =>
                let c2 := set_target t (set_moving true (snd r)) in
                if block then _finish_move fuel c2 else (Val tt, c2)
            | Exc e => (Exc e, snd r)
            | OutOfFuel => (OutOfFuel, snd r)
            end
        | None => (Exc OverflowError, c1)
        end
      else (Exc AssertionError, c1)
  | (Exc e, c1) => (Exc e, c1)
  | (OutOfFuel, c1) => (OutOfFuel, c1)
  end.
Proof.
  unfold move_deg, settle_first, target_of, bind, gets, modify, py_assert,
    lift_option, ret, raise.
  destruct ((if _moving c then _finish_move fuel else fun c0 => (Val tt, c0)) c)
    as [[u|e|] c1]; try reflexivity.
  destruct (Qbetween 0 _ 359.99); [|reflexivity].
  destruct (to_bytes_little_signed 4 _) as [p|]; [|reflexivity].
  destruct (_send _ None c1) as [[r|e|] c2]; try reflexivity.
  destruct block; reflexivity.
Qed.

Lemma settle_first_run (fuel : nat) (c : Controller) :
  settle_first fuel c
  = if _moving c then _finish_move fuel c else (Val tt, c).
Proof.
  unfold settle_first, bind, gets, ret. destruct (_moving c); reflexivity.
Qed.

(** A frame sent without a response: the write, then the look at the input
    buffer. *)
Lemma send_none_log (cmd : list byte) (c : Controller) :
  exists k,
    log (port (snd (_send cmd None c))) = log (port c) ++ [Tx cmd; Waiting k]
    /\ fst (_send cmd None c)
       = if Nat.eqb k 0 then Val None else Exc AssertionError.
Proof.
  rewrite send_run. cbv zeta. cbn [fst snd].
  eexists. split; [|reflexivity].
  cbn. rewrite log_deliver. cbn. rewrite <- app_assoc. reflexivity.
Qed.

(** With a move pending, [move_deg] starts with what [_finish_move] does,
    and transmits its own frame only after that has returned. *)
Lemma move_deg_after_settling
    (fuel : nat) (m : Q) (relative block : bool) (c : Controller) :
  _moving c = true ->
  exists settle rest,
    log (port (snd (_finish_move fuel c))) = log (port c) ++ settle
    /\ log (port (snd (move_deg fuel m relative block c)))
       = log (port c) ++ settle ++ rest
    /\ Forall poll_event settle
    /\ (rest = []
        \/ exists c1 p k tail,
             _finish_move fuel c = (Val tt, c1)
             /\ within_tolerance (position_deg c1) (_target_position_deg c)
                = true
             /\ _moving c1 = false
             /\ rest = Tx (move_absolute_frame (ch_id_bytes c1) p)
                         :: Waiting k :: tail
             /\ Forall poll_event tail).
Proof.
  intros Hm.
  destruct (finish_move_polls fuel c) as (settle & Hlog & Hall).
  rewrite move_deg_run, settle_first_run, Hm.
  destruct (_finish_move fuel c) as [[[]|e|] c1] eqn:F; cbn [snd] in Hlog;
    try (exists settle, []; rewrite app_nil_r;
         repeat (split; [assumption|]); left; reflexivity).
  destruct (finish_move_settled fuel c c1 Hm F) as (T & Hm1 & _).
  cbv zeta.
  destruct (Qbetween 0 _ 359.99);
    try (exists settle, []; rewrite app_nil_r;
         repeat (split; [assumption|]); left; reflexivity).
  destruct (to_bytes_little_signed 4 _) as [p|];
    try (exists settle, []; rewrite app_nil_r;
         repeat (split; [assumption|]); left; reflexivity).
  destruct (send_none_log (move_absolute_frame (ch_id_bytes c1) p) c1)
    as (k & Hsend & Hout).
  set (frame := move_absolute_frame (ch_id_bytes c1) p) in *.
  assert (Hrest : forall tail c',
             log (port c') = log (port c1) ++ [Tx frame; Waiting k] ++ tail ->
             Forall poll_event tail ->
             exists settle0 rest,
               log (port c1) = log (port c) ++ settle0
               /\ log (port c') = log (port c) ++ settle0 ++ rest
               /\ Forall poll_event settle0
               /\ (rest = []
                   \/ exists c0 p0 k0 tail0,
                        (Val tt, c1) = (Val tt, c0)
                        /\ within_tolerance (position_deg c0)
                             (_target_position_deg c) = true
                        /\ _moving c0 = false
                        /\ rest = Tx (move_absolute_frame (ch_id_bytes c0) p0)
                                    :: Waiting k0 :: tail0
                        /\ Forall poll_event tail0)).
  { intros tail c' Hc' Htail. exists settle, (Tx frame :: Waiting k :: tail).
    split; [exact Hlog|]. split; [rewrite Hc', Hlog, <- app_assoc; reflexivity|].
    split; [exact Hall|]. right. exists c1, p, k, tail.
    repeat (split; [first [reflexivity | assumption]|]). exact Htail. }
  cbn [snd].
  destruct (fst (_send frame None c1)) as [r|e|].
  - destruct block.
    + destruct (finish_move_polls fuel
                  (set_target (target_of m relative c1)
                     (set_moving true (snd (_send frame None c1)))))
        as (tail & Htl & Htail).
      apply (Hrest tail); [|exact Htail].
      rewrite Htl. cbn [port set_target set_moving]. rewrite Hsend, <- app_assoc.
      reflexivity.
    + apply (Hrest []); [|constructor].
      cbn [snd port set_target set_moving]. rewrite Hsend. reflexivity.
  - apply (Hrest []); [|constructor]. cbn [snd]. rewrite Hsend. reflexivity.
  - apply (Hrest []); [|constructor]. cbn [snd]. rewrite Hsend. reflexivity.
Qed.

(** C1: a call of [move_deg] on an object whose [_moving] flag is set first
    does exactly what [_finish_move] does (the settle-poll loop of the
    pending move, which writes position queries only), and whatever the call
    transmits after that, the new move-absolute frame first of all, is
    transmitted only when that loop has ended normally, with the position
    within tolerance of the pending target and the flag cleared.  A call
    that returns leaves its own move either flagged as pending (non-blocking)
    or settled within tolerance with the flag cleared (blocking), so the
    next call finds the flag set whenever a move is still outstanding. *)
Theorem move_deg_settles_pending_first :
  (forall fuel m relative block c,
      _moving c = true ->
      exists settle rest,
        log (port (snd (_finish_move fuel c))) = log (port c) ++ settle
        /\ log (port (snd (move_deg fuel m relative block c)))
           = log (port c) ++ settle ++ rest
        /\ Forall poll_event settle
        /\ (rest = []
            \/ exists c1 p k tail,
                 _finish_move fuel c = (Val tt, c1)
                 /\ within_tolerance (position_deg c1)
                      (_target_position_deg c) = true
                 /\ _moving c1 = false
                 /\ rest = Tx (move_absolute_frame (ch_id_bytes c1) p)
                             :: Waiting k :: tail
                 /\ Forall poll_event tail))
  /\ (forall fuel m relative block c c',
        move_deg fuel m relative block c = (Val tt, c') ->
        _moving c' = negb block
        /\ (block = true ->
            within_tolerance (position_deg c') (_target_position_deg c')
            = true)).
Proof.
  split; [exact move_deg_after_settling|].
  intros fuel m relative block c c' H.
  rewrite move_deg_run in H.
  destruct (settle_first fuel c) as [[[]|e|] c1]; try discriminate H.
  cbv zeta in H.
  destruct (Qbetween 0 _ 359.99); [|discriminate H].
  destruct (to_bytes_little_signed 4 _) as [p|]; [|discriminate H].
  destruct (fst (_send _ None c1)) as [r|e|]; try discriminate H.
  destruct block.
  - apply finish_move_settled in H; [|reflexivity].
    destruct H as (T & Hm & Htgt & _).
    split; [exact Hm|]. intros _. rewrite Htgt. exact T.
  - injection H as <-. split; [reflexivity|]. intros K. discriminate K.
Qed.

Lemma move_deg_settles_pending_first_witness :
  let c := pending_move ([] :: slow_device 0 ++ [[]]) in
  exists settle rest,
    log (port (snd (_finish_move 2 c))) = log (port c) ++ settle
    /\ log (port (snd (move_deg 2 20 false false c)))
       = log (port c) ++ settle ++ rest
    /\ Forall poll_event settle
    /\ (rest = []
        \/ exists c1 p k tail,
             _finish_move 2 c = (Val tt, c1)
             /\ within_tolerance (position_deg c1) (_target_position_deg c)
                = true
             /\ _moving c1 = false
             /\ rest = Tx (move_absolute_frame (ch_id_bytes c1) p)
                         :: Waiting k :: tail
             /\ Forall poll_event tail).
Proof.
  intros c.
  apply (proj1 move_deg_settles_pending_first 2%nat 20%Q false false c).
  reflexivity.
Defined.

(** A pending move is settled, and the new one transmitted after it: the log
    of the call on a device that answers the first poll at 19196 counts. *)
Example move_deg_after_pending_log :
  log (port (snd (move_deg 2 20 false false
                    (pending_move ([] :: slow_device 0 ++ [[]])))))
  = [Rx 20 []; Tx poll_frame; Rx 12 (position_response 19196); Waiting 0;
     Tx ([x53; x04; x06; x00; xd0; x01; x01; x00] ++ little_bytes 4 38393);
     Waiting 0].
Proof. vm_compute. reflexivity. Qed.

Lemma out_of_range_test (t : Q) :
  (t < 0 \/ 359.99 < t)%Q -> Qbetween 0 t 359.99 = false.
Proof.
  intros H. unfold Qbetween. apply andb_false_iff.
  destruct H as [H|H]; [left|right];
    apply not_true_is_false; intros K; apply Qle_bool_iff in K;
    apply Qlt_not_le in H; contradiction.
Qed.

Lemma in_range_test (t : Q) :
  (0 <= t)%Q -> (t <= 359.99)%Q -> Qbetween 0 t 359.99 = true.
Proof.
  intros H1 H2. unfold Qbetween. apply andb_true_iff.
  split; apply Qle_bool_iff; assumption.
Qed.

(** C3, as the code has it: a target outside [0, 359.99] fails the range
    assertion and no move-absolute frame is sent.  With no move pending the
    call fails before any transport call and leaves the object as it was;
    with a move pending, that move is settled first (position queries only)
    and the call then fails, leaving the object as the settling left it. *)
Theorem move_deg_out_of_range_rejected
    (fuel : nat) (m : Q) (relative block : bool) (c : Controller) :
  (_moving c = false ->
   (target_of m relative c < 0 \/ 359.99 < target_of m relative c)%Q ->
   move_deg fuel m relative block c = (Exc AssertionError, c))
  /\ (forall c1,
        _moving c = true ->
        _finish_move fuel c = (Val tt, c1) ->
        (target_of m relative c1 < 0 \/ 359.99 < target_of m relative c1)%Q ->
        move_deg fuel m relative block c = (Exc AssertionError, c1)
        /\ exists settle,
             log (port c1) = log (port c) ++ settle
             /\ Forall poll_event settle).
Proof.
  split.
  - intros Hm Ht. rewrite move_deg_run, settle_first_run, Hm. cbv zeta.
    rewrite (out_of_range_test _ Ht). reflexivity.
  - intros c1 Hm F Ht. split.
    + rewrite move_deg_run, settle_first_run, Hm, F. cbv zeta.
      rewrite (out_of_range_test _ Ht). reflexivity.
    + destruct (finish_move_polls fuel c) as (settle & Hlog & Hall).
      rewrite F in Hlog. exists settle. split; assumption.
Qed.

Lemma move_deg_out_of_range_rejected_witness :
  let c := unassigned true (open_port []) in
  move_deg 0 400 false true c = (Exc AssertionError, c).
Proof.
  intros c. apply (proj1 (move_deg_out_of_range_rejected 0 400 false true c)).
  - reflexivity.
  - right. reflexivity.
Defined.

(** C3 as stated fails: after a connection and a non-blocking move to 10
    degrees, an out-of-range call first reads the completion message and
    queries the position, and only then fails. *)
Lemma move_deg_out_of_range_io_counterexample :
  let c := connected [[]; move_completed; position_response 19196; []] in
  let c1 := snd (move_deg 0 10 false false c) in
  fst (move_deg 0 10 false false c) = Val tt
  /\ fst (move_deg 1 400 false true c1) = Exc AssertionError
  /\ log (port (snd (move_deg 1 400 false true c1)))
     = log (port c1)
         ++ [Rx 20 move_completed; Tx poll_frame;
             Rx 12 (position_response 19196); Waiting 0].
Proof. vm_compute. repeat split; reflexivity. Qed.

Lemma counts_in_range (t : Q) :
  (0 <= t)%Q -> (t <= 359.99)%Q ->
  0 <= py_round (t * EncCnt_per_deg) <= 691052.
Proof.
  intros H0 H1. apply py_round_bounds.
  - change (inject_Z 0) with 0%Q. apply Qmult_le_0_compat; [exact H0|].
    unfold EncCnt_per_deg. discriminate.
  - apply Qle_trans with (359.99 * EncCnt_per_deg)%Q.
    + apply Qmult_le_compat_r; [exact H1|]. unfold EncCnt_per_deg. discriminate.
    + unfold EncCnt_per_deg. discriminate.
Qed.

(** C8: for a target in [0, 359.99], with a 2-byte channel handle captured,
    the frame [move_deg] transmits (after settling a pending move, if any)
    is 12 bytes long: the header 53 04, the payload length 6, the
    destination byte 0xD0 = 0x50 | 0x80 and the source 01, then the channel
    handle and the target's encoder counts as a signed 32-bit little-endian
    integer.  Nothing but position queries is written after it. *)
Theorem move_absolute_frame_layout
    (fuel : nat) (m : Q) (relative block : bool) (c c1 : Controller) :
  settle_first fuel c = (Val tt, c1) ->
  (0 <= target_of m relative c1)%Q ->
  (target_of m relative c1 <= 359.99)%Q ->
  List.length (ch_id_bytes c1) = 2%nat ->
  exists frame counts_bytes rest,
    log (port (snd (move_deg fuel m relative block c)))
    = log (port c1) ++ Tx frame :: rest
    /\ frame = [x53; x04; x06; x00; xd0; x01] ++ ch_id_bytes c1 ++ counts_bytes
    /\ List.length frame = 12%nat
    /\ List.length counts_bytes = 4%nat
    /\ from_bytes_little_signed counts_bytes
       = py_round (target_of m relative c1 * EncCnt_per_deg)
    /\ from_bytes_little (slice 2 4 frame) = 6
    /\ nth_error frame 4 = Some xd0
    /\ byte_to_Z xd0 = Z.lor (byte_to_Z x50) (byte_to_Z x80)
    /\ Forall poll_event rest.
Proof.
  intros Hs H0 H1 Hch.
  rewrite move_deg_run, Hs. cbv zeta.
  rewrite (in_range_test _ H0 H1).
  pose proof (counts_in_range _ H0 H1) as Hc.
  destruct (to_bytes_signed_32 (py_round (target_of m relative c1 * EncCnt_per_deg)))
    as (p & Hp & Hlen & Hsigned & _); [lia|].
  rewrite Hp.
  destruct (send_none_log (move_absolute_frame (ch_id_bytes c1) p) c1)
    as (k & Hsend & _).
  assert (Hframe : move_absolute_frame (ch_id_bytes c1) p
                   = [x53; x04; x06; x00; xd0; x01] ++ ch_id_bytes c1 ++ p)
    by reflexivity.
  assert (Hrest : forall c' tail,
             log (port c') = log (port c1)
                               ++ [Tx (move_absolute_frame (ch_id_bytes c1) p);
                                   Waiting k] ++ tail ->
             Forall poll_event tail ->
             exists frame counts_bytes rest,
               log (port c') = log (port c1) ++ Tx frame :: rest
               /\ frame = [x53; x04; x06; x00; xd0; x01]
                            ++ ch_id_bytes c1 ++ counts_bytes
               /\ List.length frame = 12%nat
               /\ List.length counts_bytes = 4%nat
               /\ from_bytes_little_signed counts_bytes
                  = py_round (target_of m relative c1 * EncCnt_per_deg)
               /\ from_bytes_little (slice 2 4 frame) = 6
               /\ nth_error frame 4 = Some xd0
               /\ byte_to_Z xd0 = Z.lor (byte_to_Z x50) (byte_to_Z x80)
               /\ Forall poll_event rest).
  { intros c' tail Hc' Htail.
    exists (move_absolute_frame (ch_id_bytes c1) p), p, (Waiting k :: tail).
    split; [exact Hc'|]. split; [exact Hframe|].
    split; [rewrite Hframe, !length_app, Hch, Hlen; reflexivity|].
    split; [exact Hlen|]. split; [exact Hsigned|].
    split; [reflexivity|]. split; [reflexivity|]. split; [reflexivity|].
    constructor; [exact I | exact Htail]. }
  destruct (fst (_send _ None c1)) as [r|e|].
  - destruct block.
    + destruct (finish_move_polls fuel
                  (set_target (target_of m relative c1)
                     (set_moving true
                        (snd (_send (move_absolute_frame (ch_id_bytes c1) p)
                                None c1)))))
        as (tail & Htl & Htail).
      apply (Hrest _ tail); [|exact Htail].
      rewrite Htl. cbn [port set_target set_moving]. rewrite Hsend, <- app_assoc.
      reflexivity.
    + apply (Hrest _ []); [|constructor].
      cbn [snd port set_target set_moving]. rewrite Hsend. reflexivity.
  - apply (Hrest _ []); [|constructor]. cbn [snd]. rewrite Hsend. reflexivity.
  - apply (Hrest _ []); [|constructor]. cbn [snd]. rewrite Hsend. reflexivity.
Qed.

Lemma move_absolute_frame_layout_witness :
  let c := ready [] in
  exists frame counts_bytes rest,
    log (port (snd (move_deg 0 359.99 false false c)))
    = log (port c) ++ Tx frame :: rest
    /\ frame = [x53; x04; x06; x00; xd0; x01] ++ ch_id_bytes c ++ counts_bytes
    /\ List.length frame = 12%nat
    /\ List.length counts_bytes = 4%nat
    /\ from_bytes_little_signed counts_bytes
       = py_round (target_of 359.99 false c * EncCnt_per_deg)
    /\ from_bytes_little (slice 2 4 frame) = 6
    /\ nth_error frame 4 = Some xd0
    /\ byte_to_Z xd0 = Z.lor (byte_to_Z x50) (byte_to_Z x80)
    /\ Forall poll_event rest.
Proof.
  intros c.
  apply (move_absolute_frame_layout 0 359.99 false false c c).
  - reflexivity.
  - discriminate.
  - discriminate.
  - reflexivity.
Defined.

(** The frame of the move to 359.99 degrees: 691052 counts. *)
Example move_to_upper_limit_frame :
  log (port (snd (move_deg 0 359.99 false false (ready []))))
  = [Tx [x53; x04; x06; x00; xd0; x01; x01; x00; x6c; x8b; x0a; x00];
     Waiting 0].
Proof. vm_compute. reflexivity. Qed.

(** ** Degrees and encoder counts *)

(** C5: for every degree value [d] in [0, 359.99], the counts
    [round(d * EncCnt_per_deg)] that [move_deg] sends, divided by
    [EncCnt_per_deg] as [get_position_deg] does, are within 0.01 degree of
    [d]: the tolerance test of [_finish_move] passes on them. *)
Theorem degrees_counts_round_trip (d : Q) :
  (0 <= d)%Q -> (d <= 359.99)%Q ->
  let back := (inject_Z (py_round (d * EncCnt_per_deg)) / EncCnt_per_deg)%Q in
  (Qabs (back - d) <= 0.01)%Q
  /\ within_tolerance back d = true
  /\ (0 < EncCnt_per_deg)%Q.
Proof.
  intros H0 H1 back.
  destruct (py_round_close (d * EncCnt_per_deg)) as [Hlo Hhi].
  assert (HE : (0 < EncCnt_per_deg)%Q) by reflexivity.
  assert (Hne : ~ (EncCnt_per_deg == 0)%Q) by discriminate.
  assert (Hd : (d == d * EncCnt_per_deg / EncCnt_per_deg)%Q)
    by (rewrite Qdiv_mult_l; [reflexivity | exact Hne]).
  assert (Hhalf : ((1 # 2) / EncCnt_per_deg <= 0.01)%Q) by discriminate.
  assert (Hup : (back <= d + 0.01)%Q).
  { unfold back. rewrite Hd at 2.
    apply Qle_trans
      with ((d * EncCnt_per_deg + (1 # 2)) / EncCnt_per_deg)%Q.
    - apply Qle_shift_div_l; [exact HE|].
      unfold Qdiv. rewrite <- Qmult_assoc, (Qmult_comm (/ _)), Qmult_inv_r,
        Qmult_1_r; [exact Hhi | exact Hne].
    - unfold Qdiv. rewrite Qmult_plus_distr_l.
      apply Qplus_le_r. exact Hhalf. }
  assert (Hdown : (d - 0.01 <= back)%Q).
  { unfold back. rewrite Hd at 1.
    apply Qle_trans
      with ((d * EncCnt_per_deg - (1 # 2)) / EncCnt_per_deg)%Q.
    - unfold Qdiv, Qminus. rewrite Qmult_plus_distr_l.
      apply Qplus_le_r.
      setoid_replace (- (1 # 2) * / EncCnt_per_deg)%Q
        with (- ((1 # 2) / EncCnt_per_deg))%Q by (unfold Qdiv; ring).
      apply Qopp_le_compat. exact Hhalf.
    - apply Qle_shift_div_r; [exact HE|].
      unfold Qdiv. rewrite <- Qmult_assoc, (Qmult_comm (/ _)), Qmult_inv_r,
        Qmult_1_r; [exact Hlo | exact Hne]. }
  split; [|split; [|exact HE]].
  - apply Qabs_Qle_condition. split; lra.
  - unfold within_tolerance, Qbetween, _move_tol_deg.
    apply andb_true_iff. split; apply Qle_bool_iff; assumption.
Qed.

Lemma degrees_counts_round_trip_witness :
  let back :=
    (inject_Z (py_round (359.99 * EncCnt_per_deg)) / EncCnt_per_deg)%Q in
  (Qabs (back - 359.99) <= 0.01)%Q
  /\ within_tolerance back 359.99 = true
  /\ (0 < EncCnt_per_deg)%Q.
Proof.
  apply (degrees_counts_round_trip 359.99); discriminate.
Defined.

(** ** Decoding of the response fields *)

Lemma from_bytes_little_nonneg (bs : list byte) : 0 <= from_bytes_little bs.
Proof.
  induction bs as [|b bs IH]; cbn [from_bytes_little]; [lia|].
  unfold byte_to_Z. lia.
Qed.

(** C4, where the code departs from it: the fields are read with
    [int.from_bytes(..., byteorder='little')], which is unsigned.  A
    position response whose bytes 8..12 are ff ff ff ff (one count below
    zero as a signed 32-bit integer) is stored as 4294967295 counts, more
    than two million degrees; the same holds for the acceleration and the
    maximum velocity of a velocity-parameters response.  No field is ever
    decoded to a negative number. *)
Theorem response_fields_decoded_unsigned :
  slice 8 12 (position_response (-1)) = [xff; xff; xff; xff]
  /\ from_bytes_little_signed [xff; xff; xff; xff] = -1
  /\ fst (get_position_deg (connected [position_response (-1); []]))
     = Val (inject_Z 4294967295 / EncCnt_per_deg)%Q
  /\ position_counts
       (snd (get_position_deg (connected [position_response (-1); []])))
     = 4294967295
  /\ (2237379 < position_deg
                  (snd (get_position_deg
                          (connected [position_response (-1); []]))))%Q
  /\ fst (_get_velocity_parameters (connected [velocity_response (-1) (-1); []]))
     = Val ((inject_Z 4294967295 / EncCnt_per_deg_per_s)%Q,
            (inject_Z 4294967295 / EncCnt_per_deg_per_s2)%Q)
  /\ (forall bs, 0 <= from_bytes_little bs).
Proof.
  repeat (split; [vm_compute; reflexivity|]).
  exact from_bytes_little_nonneg.
Qed.

(** ** Connecting *)

Lemma get_info_run (c : Controller) :
  _get_info c =
  let r := _send info_request (Some 90%nat) c in
  match fst r with
  | Val resp =>
      let response := bytes_of resp in
      match decode_ascii (slice 10 18 response) with
      | Some model =>
          (Val response,
           set_info model
             (from_bytes_little (slice 18 20 response))
             (from_bytes_little (slice 6 10 response))
             (from_bytes_little (slice 20 24 response))
             (from_bytes_little (slice 84 86 response))
             (snd r))
      | None => (Exc UnicodeDecodeError, snd r)
      end
  | Exc e => (Exc e, snd r)
  | OutOfFuel => (OutOfFuel, snd r)
  end.
Proof.
  unfold _get_info, bind, modify, lift_option, ret, raise, info_request.
  destruct (_send _ (Some 90%nat) c) as [[resp|e|] c1]; try reflexivity.
  cbn [fst snd]. destruct (decode_ascii _); reflexivity.
Qed.

Lemma model_number_differs (bs : list byte) :
  bs <> expected_model_bytes ->
  String.eqb (string_of_list_byte bs) expected_model_number = false.
Proof.
  intros H. apply String.eqb_neq. intros E. apply H.
  rewrite <- (list_byte_of_string_of_list_byte bs), E. reflexivity.
Qed.

(** C6: when the model bytes or the firmware version of the identity
    response differ from ['KDC101\x00\x00'] and 131592, [__init__] raises
    (the assertion, or the ASCII decoding of the model bytes), and the
    identity exchange is all the port has seen: no frame follows the
    identity request. *)
Theorem init_identity_mismatch_fails_fast
    (fuel : nat) (script : list (list byte)) (verbose' : bool) :
  let response := firstn 90 (hd [] script) in
  slice 10 18 response <> expected_model_bytes
  \/ from_bytes_little (slice 20 24 response) <> 131592 ->
  exists e k,
    fst (__init__ fuel (Some script) verbose') = Exc e
    /\ (e = AssertionError \/ e = UnicodeDecodeError)
    /\ log (port (snd (__init__ fuel (Some script) verbose')))
       = [Tx info_request; Rx 90 response; Waiting k].
Proof.
  intros response H.
  destruct (__init__ fuel (Some script) verbose') as [o c'] eqn:R.
  unfold __init__ in R.
  set (c0 := unassigned verbose' (open_port script)) in R.
  unfold bind at 1 in R. rewrite get_info_run, send_run in R.
  cbv zeta in R.
  set (p0 := port_write info_request (port c0)) in R.
  assert (Hresp : fst (port_read 90 p0) = response).
  { unfold response. destruct script; reflexivity. }
  assert (Hlog : forall k p,
             port_inWaiting (snd (port_read 90 p0)) = (k, p) ->
             log p = [Tx info_request; Rx 90 response; Waiting k]).
  { intros k p E. unfold port_inWaiting in E. injection E as <- <-.
    cbn [log]. rewrite log_deliver. rewrite <- Hresp.
    destruct script; reflexivity. }
  cbn [fst snd] in R.
  destruct (port_inWaiting (snd (port_read 90 p0))) as [k p] eqn:E.
  specialize (Hlog k p eq_refl).
  cbn [fst snd] in R. rewrite Hresp in R.
  assert (Hfail : forall e c1,
             e = AssertionError \/ e = UnicodeDecodeError ->
             log (port c1) = log p ->
             (Exc e, c1) = (o, c') ->
             exists e0 k0,
               fst (o, c') = Exc e0
               /\ (e0 = AssertionError \/ e0 = UnicodeDecodeError)
               /\ log (port (snd (o, c')))
                  = [Tx info_request; Rx 90 response; Waiting k0]).
  { intros e c1 He Hc1 Eq. injection Eq as <- <-. exists e, k.
    split; [reflexivity|]. split; [exact He|]. cbn [snd].
    rewrite Hc1. exact Hlog. }
  destruct (Nat.eqb k 0).
  2:{ cbn [fst snd] in R. refine (Hfail _ _ _ _ R); [left; reflexivity | reflexivity]. }
  cbn [fst snd bytes_of] in R.
  unfold decode_ascii in R.
  destruct (forallb _ (slice 10 18 response)).
  2:{ refine (Hfail _ _ _ _ R); [right; reflexivity | reflexivity]. }
  unfold bind at 1 in R. unfold gets at 1 in R.
  unfold bind at 1 in R.
  cbn [model_number set_info] in R.
  destruct (String.eqb _ expected_model_number) eqn:Em.
  - destruct H as [H|H].
    + rewrite (model_number_differs _ H) in Em. discriminate Em.
    + cbn [py_assert] in R. unfold ret at 1 in R.
      unfold bind at 1 in R. unfold gets at 1 in R.
      unfold bind at 1 in R.
      cbn [firmware_v set_info] in R.
      destruct (Z.eqb_spec (from_bytes_little (slice 20 24 response)) 131592)
        as [K|K]; [contradiction|].
      refine (Hfail _ _ _ _ R); [left; reflexivity | reflexivity].
  - refine (Hfail _ _ _ _ R); [left; reflexivity | reflexivity].
Qed.

Lemma init_identity_mismatch_fails_fast_witness :
  exists e k,
    fst (__init__ 0 (Some []) true) = Exc e
    /\ (e = AssertionError \/ e = UnicodeDecodeError)
    /\ log (port (snd (__init__ 0 (Some []) true)))
       = [Tx info_request; Rx 90 []; Waiting k].
Proof.
  apply (init_identity_mismatch_fails_fast 0 [] true).
  left. discriminate.
Defined.

(** ** The velocity profile *)

Lemma get_velocity_parameters_run (c : Controller) :
  _get_velocity_parameters c =
  let r := _send velocity_query (Some 20%nat) c in
  match fst r with
  | Val resp =>
      let response := bytes_of resp in
      (Val (max_velocity_of response, acceleration_of response),
       set_acceleration (acceleration_of response)
         (set_max_velocity (max_velocity_of response) (snd r)))
  | Exc e => (Exc e, snd r)
  | OutOfFuel => (OutOfFuel, snd r)
  end.
Proof.
  unfold _get_velocity_parameters, bind, modify, gets, ret, velocity_query.
  destruct (_send _ (Some 20%nat) c) as [[resp|e|] c1]; reflexivity.
Qed.

Lemma set_velocity_parameters_run (mv ac : Q) (c : Controller) :
  _set_velocity_parameters mv ac c =
  if Qbetween 0 mv 25 then
    if Qbetween 0 ac 25 then
      match to_bytes_little_signed 4 0,
            to_bytes_little_signed 4 (py_round (mv * EncCnt_per_deg_per_s)),
            to_bytes_little_signed 4 (py_round (ac * EncCnt_per_deg_per_s2))
      with
      | Some m, Some v, Some a =>
          let s := _send (velocity_frame (ch_id_bytes c) m a v) None c in
          match fst s with
          | Val _ =>
              let g := _get_velocity_parameters (snd s) in
              match fst g with
              | Val _ =>
                  if Qeq_bool (py_round_digits (max_velocity (snd g)) 1) mv
                  then if Qeq_bool (py_round_digits (acceleration (snd g)) 1) ac
                       then (Val tt, snd g)
                       else (Exc AssertionError, snd g)
                  else (Exc AssertionError, snd g)
              | Exc e => (Exc e, snd g)
              | OutOfFuel => (OutOfFuel, snd g)
              end
          | Exc e => (Exc e, snd s)
          | OutOfFuel => (OutOfFuel, snd s)
          end
      | _, _, _ => (Exc OverflowError, c)
      end
    else (Exc AssertionError, c)
  else (Exc AssertionError, c).
Proof.
  unfold _set_velocity_parameters, bind, gets, modify, py_assert, lift_option,
    ret, raise, velocity_frame.
  destruct (Qbetween 0 mv 25); [|reflexivity].
  destruct (Qbetween 0 ac 25); [|reflexivity].
  destruct (to_bytes_little_signed 4 0) as [m|]; [|reflexivity].
  destruct (to_bytes_little_signed 4 (py_round (mv * _))) as [v|];
    [|reflexivity].
  destruct (to_bytes_little_signed 4 (py_round (ac * _))) as [a|];
    [|reflexivity].
  destruct (_send _ None c) as [[r|e|] c1]; try reflexivity.
  cbn [fst snd].
  destruct (_get_velocity_parameters c1) as [[r'|e|] c2]; try reflexivity.
  cbn [fst snd].
  destruct (Qeq_bool (py_round_digits (max_velocity c2) 1) mv);
    [|reflexivity].
  destruct (Qeq_bool (py_round_digits (acceleration c2) 1) ac); reflexivity.
Qed.

(** A frame sent for a response of [n] bytes: the write, the read, then the
    look at the input buffer. *)
Lemma send_some_log (cmd : list byte) (n : nat) (c : Controller) :
  exists data k,
    log (port (snd (_send cmd (Some n) c)))
    = log (port c) ++ [Tx cmd; Rx n data; Waiting k]
    /\ fst (_send cmd (Some n) c)
       = (if Nat.eqb k 0 then Val (Some data) else Exc AssertionError)
    /\ data = firstn n (inbuf (deliver (port c))).
Proof.
  rewrite send_run. cbv zeta. cbn [fst snd].
  eexists _, _. split; [|split; [reflexivity|]].
  - cbn. rewrite !log_deliver. cbn. rewrite <- !app_assoc. reflexivity.
  - unfold port_read, port_write, deliver. cbn.
    destruct (arrivals (port c)); reflexivity.
Qed.

Lemma velocity_counts_in_range (mv : Q) :
  (0 <= mv)%Q -> (mv <= 25)%Q ->
  0 <= py_round (mv * EncCnt_per_deg_per_s) <= 1073542.
Proof.
  intros H0 H1. apply py_round_bounds.
  - change (inject_Z 0) with 0%Q. apply Qmult_le_0_compat; [exact H0|].
    unfold EncCnt_per_deg_per_s. discriminate.
  - apply Qle_trans with (25 * EncCnt_per_deg_per_s)%Q.
    + apply Qmult_le_compat_r; [exact H1|].
      unfold EncCnt_per_deg_per_s. discriminate.
    + unfold EncCnt_per_deg_per_s. discriminate.
Qed.

Lemma acceleration_counts_in_range (ac : Q) :
  (0 <= ac)%Q -> (ac <= 25)%Q ->
  0 <= py_round (ac * EncCnt_per_deg_per_s2) <= 367.
Proof.
  intros H0 H1. apply py_round_bounds.
  - change (inject_Z 0) with 0%Q. apply Qmult_le_0_compat; [exact H0|].
    unfold EncCnt_per_deg_per_s2. discriminate.
  - apply Qle_trans with (25 * EncCnt_per_deg_per_s2)%Q.
    + apply Qmult_le_compat_r; [exact H1|].
      unfold EncCnt_per_deg_per_s2. discriminate.
    + unfold EncCnt_per_deg_per_s2. discriminate.
Qed.

Lemma velocity_out_of_range_test (x : Q) :
  (x < 0 \/ 25 < x)%Q -> Qbetween 0 x 25 = false.
Proof.
  intros H. unfold Qbetween. apply andb_false_iff.
  destruct H as [H|H]; [left|right];
    apply not_true_is_false; intros K; apply Qle_bool_iff in K;
    apply Qlt_not_le in H; contradiction.
Qed.

Lemma velocity_in_range_test (x : Q) :
  (0 <= x <= 25)%Q -> Qbetween 0 x 25 = true.
Proof.
  intros [H1 H2]. unfold Qbetween. apply andb_true_iff.
  split; apply Qle_bool_iff; assumption.
Qed.

(** C7: [_set_velocity_parameters] rejects a maximum velocity or an
    acceleration outside [0, 25] before anything is written; otherwise it
    writes the set frame once, then the velocity query, and returns
    normally exactly when the re-read values, rounded to one decimal, equal
    the requested ones (any other outcome is the assertion failing: nothing
    is sent again).  On a device that reports the counts it was sent,
    setting (25, 25) succeeds and the stored values round to 25.0. *)
Theorem set_velocity_parameters_verified :
  (forall mv ac c,
      (mv < 0 \/ 25 < mv)%Q \/ (ac < 0 \/ 25 < ac)%Q ->
      _set_velocity_parameters mv ac c = (Exc AssertionError, c))
  /\ (forall mv ac c,
        (0 <= mv <= 25)%Q -> (0 <= ac <= 25)%Q ->
        exists m a v k,
          let frame := velocity_frame (ch_id_bytes c) m a v in
          let r := _set_velocity_parameters mv ac c in
          from_bytes_little_signed m = 0
          /\ from_bytes_little_signed a = py_round (ac * EncCnt_per_deg_per_s2)
          /\ from_bytes_little_signed v = py_round (mv * EncCnt_per_deg_per_s)
          /\ ((k <> 0%nat
               /\ fst r = Exc AssertionError
               /\ log (port (snd r)) = log (port c) ++ [Tx frame; Waiting k])
              \/ (k = 0%nat
                  /\ exists response k',
                       log (port (snd r))
                       = log (port c)
                           ++ [Tx frame; Waiting 0; Tx velocity_query;
                               Rx 20 response; Waiting k']
                       /\ fst r
                          = (if Nat.eqb k' 0 && reread_matches response mv ac
                             then Val tt else Exc AssertionError)
                       /\ (k' = 0%nat ->
                           max_velocity (snd r) = max_velocity_of response
                           /\ acceleration (snd r)
                              = acceleration_of response))))
  /\ (let r := _set_velocity_parameters 25 25
                 (ready [[]; velocity_response 366 1073542; []]) in
      py_round (25 * EncCnt_per_deg_per_s2) = 366
      /\ py_round (25 * EncCnt_per_deg_per_s) = 1073542
      /\ fst r = Val tt
      /\ py_round_digits (max_velocity (snd r)) 1 = 25.0%Q
      /\ py_round_digits (acceleration (snd r)) 1 = 25.0%Q).
Proof.
  split; [|split].
  - intros mv ac c H. rewrite set_velocity_parameters_run.
    destruct H as [H|H].
    + rewrite (velocity_out_of_range_test _ H). reflexivity.
    + rewrite (velocity_out_of_range_test _ H).
      destruct (Qbetween 0 mv 25); reflexivity.
  - intros mv ac c Hmv Hac.
    pose proof (velocity_counts_in_range mv (proj1 Hmv) (proj2 Hmv)) as Bv.
    pose proof (acceleration_counts_in_range ac (proj1 Hac) (proj2 Hac)) as Ba.
    destruct (to_bytes_signed_32 0) as (m & Em & _ & Hm & _); [lia|].
    destruct (to_bytes_signed_32 (py_round (mv * EncCnt_per_deg_per_s)))
      as (v & Ev & _ & Hv & _); [lia|].
    destruct (to_bytes_signed_32 (py_round (ac * EncCnt_per_deg_per_s2)))
      as (a & Ea & _ & Ha & _); [lia|].
    destruct (send_none_log (velocity_frame (ch_id_bytes c) m a v) c)
      as (k & Hlog & Hout).
    exists m, a, v, k. cbv zeta.
    split; [exact Hm|]. split; [exact Ha|]. split; [exact Hv|].
    rewrite set_velocity_parameters_run,
      (velocity_in_range_test _ Hmv), (velocity_in_range_test _ Hac),
      Em, Ev, Ea.
    cbv zeta. rewrite Hout.
    destruct k as [|k].
    + right. split; [reflexivity|]. cbn [Nat.eqb].
      rewrite get_velocity_parameters_run. cbv zeta.
      destruct (send_some_log velocity_query 20
                  (snd (_send (velocity_frame (ch_id_bytes c) m a v) None c)))
        as (response & k' & Hlog' & Hout' & _).
      exists response, k'.
      rewrite Hout'. rewrite Hlog in Hlog'.
      destruct (Nat.eqb_spec k' 0) as [K|K].
      * cbn [fst snd bytes_of max_velocity acceleration set_acceleration
               set_max_velocity port andb].
        unfold reread_matches.
        destruct (Qeq_bool (py_round_digits (max_velocity_of response) 1) mv);
          destruct (Qeq_bool (py_round_digits (acceleration_of response) 1) ac);
          cbn [fst snd port set_acceleration set_max_velocity andb
                 max_velocity acceleration];
          (split; [rewrite Hlog', <- app_assoc; reflexivity|]);
          (split; [reflexivity|]); intros _; split; reflexivity.
      * cbn [fst snd andb].
        split; [rewrite Hlog', <- app_assoc; reflexivity|].
        split; [reflexivity|]. intros K'. contradiction.
    + left. cbn [Nat.eqb fst snd]. split; [discriminate|].
      split; [reflexivity | exact Hlog].
  - vm_compute. repeat split; reflexivity.
Qed.

Lemma set_velocity_parameters_verified_witness :
  _set_velocity_parameters 26 25 (ready [])
  = (Exc AssertionError, ready []).
Proof.
  apply (proj1 set_velocity_parameters_verified).
  left. right. reflexivity.
Defined.

(** ** Every exchange is checked *)

Lemma checked_app (l1 l2 : list event) :
  checked l1 -> checked l2 -> checked (l1 ++ l2).
Proof.
  intros H1 H2. induction H1; cbn; try constructor; assumption.
Qed.

Lemma checks_ret {A} (a : A) : checks (ret a).
Proof.
  intros c x c' H. injection H as _ <-. exists [].
  split; [now rewrite app_nil_r | constructor].
Qed.

Lemma checks_raise {A} (e : exn) : checks (@raise A e).
Proof. intros c x c' H. discriminate H. Qed.

Lemma checks_out_of_fuel {A} : checks (@out_of_fuel A).
Proof. intros c x c' H. discriminate H. Qed.

Lemma checks_gets {A} (f : Controller -> A) : checks (gets f).
Proof.
  intros c x c' H. injection H as _ <-. exists [].
  split; [now rewrite app_nil_r | constructor].
Qed.

Lemma checks_modify (f : Controller -> Controller) :
  (forall c, port (f c) = port c) -> checks (modify f).
Proof.
  intros Hf c x c' H. injection H as _ <-. exists [].
  split; [now rewrite Hf, app_nil_r | constructor].
Qed.

Lemma checks_py_assert (b : bool) : checks (py_assert b).
Proof. destruct b; [apply checks_ret | apply checks_raise]. Qed.

Lemma checks_lift_option {A} (e : exn) (o : option A) :
  checks (lift_option e o).
Proof. destruct o; [apply checks_ret | apply checks_raise]. Qed.

Lemma checks_bind {A B} (m : M A) (k : A -> M B) :
  checks m -> (forall a, checks (k a)) -> checks (bind m k).
Proof.
  intros Hm Hk c b c' H. unfold bind in H.
  destruct (m c) as [[a|e|] c1] eqn:E; try discriminate H.
  destruct (Hm _ _ _ E) as (s1 & L1 & C1).
  destruct (Hk a _ _ _ H) as (s2 & L2 & C2).
  exists (s1 ++ s2). split.
  - rewrite L2, L1, app_assoc. reflexivity.
  - apply checked_app; assumption.
Qed.

Lemma checks_set_timeout (t : Z) :
  checks (on_port (fun p => (tt, port_set_timeout t p))).
Proof.
  intros c x c' H. injection H as _ <-. exists [].
  split; [cbn; now rewrite app_nil_r | constructor].
Qed.

Lemma checks_read (n : nat) : checks (on_port (port_read n)).
Proof.
  intros c x c' H. unfold on_port in H. cbn in H. injection H as _ <-.
  eexists [Rx n _]. split.
  - cbn. rewrite log_deliver. reflexivity.
  - repeat constructor.
Qed.

Lemma length_firstn_le {A} (n : nat) (l : list A) :
  (List.length (firstn n l) <= n)%nat.
Proof. rewrite length_firstn. apply Nat.le_min_l. Qed.

Lemma checks_send (cmd : list byte) (response_bytes : option nat) :
  checks (_send cmd response_bytes).
Proof.
  intros c r c' H. destruct response_bytes as [n|].
  - destruct (send_some_log cmd n c) as (data & k & Hlog & Hout & Hdata).
    rewrite H in Hlog, Hout. cbn [fst snd] in Hlog, Hout.
    destruct k as [|k]; [|discriminate Hout].
    eexists. split; [exact Hlog|].
    constructor; [|constructor]. rewrite Hdata. apply length_firstn_le.
  - destruct (send_none_log cmd c) as (k & Hlog & Hout).
    rewrite H in Hlog, Hout. cbn [fst snd] in Hlog, Hout.
    destruct k as [|k]; [|discriminate Hout].
    eexists. split; [exact Hlog|]. repeat constructor.
Qed.

Create HintDb checks.

#[local] Hint Resolve checks_ret checks_raise checks_out_of_fuel checks_gets
  checks_py_assert checks_lift_option checks_set_timeout checks_read
  checks_send : checks.

Ltac checks_step :=
  first
    [ solve [auto with checks]
    | apply checks_modify; intros ?; reflexivity
    | match goal with
      | |- checks (if ?b then _ else _) => destruct b
      end
    | apply checks_bind; [|intros ?] ].

Ltac checks_method := cbv zeta; repeat checks_step.

Lemma checks_get_info : checks _get_info.
Proof. unfold _get_info. checks_method. Qed.

Lemma checks_get_enable : checks _get_enable.
Proof. unfold _get_enable, index. checks_method. Qed.

#[local] Hint Resolve checks_get_info checks_get_enable : checks.

Lemma checks_set_enable (e : bool) : checks (_set_enable e).
Proof. unfold _set_enable. checks_method. Qed.

Lemma checks_get_homed_status : checks _get_homed_status.
Proof. unfold _get_homed_status, index. checks_method. Qed.

Lemma checks_get_position_deg : checks get_position_deg.
Proof. unfold get_position_deg. checks_method. Qed.

#[local] Hint Resolve checks_set_enable checks_get_homed_status
  checks_get_position_deg : checks.

Lemma checks_quiet_position : checks quiet_position.
Proof. unfold quiet_position. checks_method. Qed.

#[local] Hint Resolve checks_quiet_position : checks.

Lemma checks_home_loop (fuel : nat) : checks (home_loop fuel).
Proof.
  induction fuel as [|fuel IH]; cbn [home_loop]; checks_method; exact IH.
Qed.

Lemma checks_finish_loop (fuel : nat) : checks (finish_loop fuel).
Proof.
  induction fuel as [|fuel IH]; cbn [finish_loop]; checks_method; exact IH.
Qed.

#[local] Hint Resolve checks_home_loop checks_finish_loop : checks.

Lemma checks_home (fuel : nat) : checks (_home fuel).
Proof. unfold _home. checks_method. Qed.

Lemma checks_get_velocity_parameters : checks _get_velocity_parameters.
Proof. unfold _get_velocity_parameters. checks_method. Qed.

#[local] Hint Resolve checks_home checks_get_velocity_parameters : checks.

Lemma checks_set_velocity_parameters (v a : Q) :
  checks (_set_velocity_parameters v a).
Proof. unfold _set_velocity_parameters. checks_method. Qed.

Lemma checks_identify : checks identify.
Proof. unfold identify. checks_method. Qed.

Lemma checks_finish_move (fuel : nat) : checks (_finish_move fuel).
Proof. unfold _finish_move. checks_method. Qed.

#[local] Hint Resolve checks_set_velocity_parameters checks_identify
  checks_finish_move : checks.

Lemma checks_move_deg (fuel : nat) (m : Q) (relative block : bool) :
  checks (move_deg fuel m relative block).
Proof. unfold move_deg. checks_method. Qed.

Lemma inWaiting_length (p : Port) :
  fst (port_inWaiting p) = List.length (inbuf (snd (port_inWaiting p))).
Proof. reflexivity. Qed.

Lemma deliver_write (cmd : list byte) (p : Port) :
  deliver (port_write cmd p) = port_write cmd (deliver p).
Proof. destruct p as [t ib [|a ar] lg]; reflexivity. Qed.

Lemma deliver_inbuf_nil (p : Port) : inbuf (deliver p) = [] -> inbuf p = [].
Proof.
  destruct p as [t ib [|a ar] lg]; cbn; [trivial|].
  intros E. apply app_eq_nil in E. exact (proj1 E).
Qed.

Lemma checked_init (fuel : nat) (script : list (list byte)) (verbose' : bool) :
  fst (__init__ fuel (Some script) verbose') = Val tt ->
  checked (log (port (snd (__init__ fuel (Some script) verbose')))).
Proof.
  unfold __init__.
  match goal with
  | |- fst (?m ?c0) = _ -> _ =>
      assert (Hm : checks m) by checks_method;
      destruct (m c0) as [[[]|e|] c'] eqn:E; cbn [fst snd];
      intros H; try discriminate H;
      destruct (Hm _ _ _ E) as (seg & Hlog & Hseg)
  end.
  rewrite Hlog. exact Hseg.
Qed.

(** C10, as the code has it: [_send] writes the frame, reads at most the
    requested number of bytes (the first of those the port holds: all of
    them only when that many have arrived) and then asserts that the input
    buffer is empty.  When it returns the buffer is empty; bytes left
    unread make it raise [AssertionError].  Every frame of every method
    goes through [_send], so the log of a method that returns is made of
    such checked exchanges (and the bare read of [_finish_move]). *)
Theorem send_checks_input_empty :
  (forall cmd response_bytes c r c',
      _send cmd response_bytes c = (Val r, c') ->
      inbuf (port c') = []
      /\ match response_bytes with
         | Some n =>
             exists data,
               r = Some data
               /\ data = firstn n (inbuf (deliver (port c)))
               /\ (List.length data <= n)%nat
               /\ log (port c')
                  = log (port c) ++ [Tx cmd; Rx n data; Waiting 0]
         | None =>
             r = None
             /\ log (port c') = log (port c) ++ [Tx cmd; Waiting 0]
         end)
  /\ (forall cmd response_bytes c,
        inbuf (port (snd (_send cmd response_bytes c))) <> [] ->
        fst (_send cmd response_bytes c) = Exc AssertionError)
  /\ (forall cmd n c,
        (n < List.length (inbuf (deliver (port c))))%nat ->
        fst (_send cmd (Some n) c) = Exc AssertionError)
  /\ (checks _get_info
      /\ checks _get_enable
      /\ (forall e, checks (_set_enable e))
      /\ checks _get_homed_status
      /\ (forall fuel, checks (_home fuel))
      /\ checks _get_velocity_parameters
      /\ (forall v a, checks (_set_velocity_parameters v a))
      /\ checks identify
      /\ checks get_position_deg
      /\ (forall fuel, checks (_finish_move fuel))
      /\ (forall fuel m relative block,
            checks (move_deg fuel m relative block)))
  /\ (forall fuel script verbose',
        fst (__init__ fuel (Some script) verbose') = Val tt ->
        checked (log (port (snd (__init__ fuel (Some script) verbose'))))).
Proof.
  assert (Hbuf : forall cmd response_bytes c,
             inbuf (port (snd (_send cmd response_bytes c))) <> [] ->
             fst (_send cmd response_bytes c) = Exc AssertionError).
  { intros cmd rb c. rewrite send_run. cbv zeta. cbn [fst snd port set_port].
    rewrite inWaiting_length. intros Hne.
    destruct (inbuf (snd (port_inWaiting _))) as [|b bs];
      [contradiction | reflexivity]. }
  split; [|split; [exact Hbuf|split; [|split]]].
  - intros cmd rb c r c' H.
    split.
    + destruct (inbuf (port c')) as [|b bs] eqn:E; [reflexivity|].
      specialize (Hbuf cmd rb c). rewrite H in Hbuf. cbn [fst snd] in Hbuf.
      rewrite E in Hbuf. discriminate Hbuf. discriminate.
    + destruct rb as [n|].
      * destruct (send_some_log cmd n c) as (data & k & Hlog & Hout & Hdata).
        rewrite H in Hlog, Hout. cbn [fst snd] in Hlog, Hout.
        destruct k as [|k]; [|discriminate Hout].
        cbn [Nat.eqb] in Hout. injection Hout as ->.
        exists data. split; [reflexivity|]. split; [exact Hdata|].
        split; [rewrite Hdata; apply length_firstn_le | exact Hlog].
      * destruct (send_none_log cmd c) as (k & Hlog & Hout).
        rewrite H in Hlog, Hout. cbn [fst snd] in Hlog, Hout.
        destruct k as [|k]; [|discriminate Hout].
        cbn [Nat.eqb] in Hout. injection Hout as ->.
        split; [reflexivity | exact Hlog].
  - intros cmd n c Hn. apply Hbuf.
    rewrite send_run. cbv zeta. cbn [fst snd port set_port].
    unfold port_inWaiting, port_read. cbn [fst snd inbuf].
    rewrite deliver_write. cbn [port_write inbuf].
    intros E.
    assert (Hs : skipn n (inbuf (deliver (port c))) <> []).
    { intros K. apply (f_equal (@List.length byte)) in K.
      rewrite length_skipn in K. cbn in K. lia. }
    apply deliver_inbuf_nil in E. cbn [inbuf] in E. contradiction.
  - repeat split; intros;
      auto using checks_get_info, checks_get_enable, checks_set_enable,
        checks_get_homed_status, checks_home, checks_get_velocity_parameters,
        checks_set_velocity_parameters, checks_identify,
        checks_get_position_deg, checks_finish_move, checks_move_deg.
  - exact checked_init.
Qed.

Lemma send_checks_input_empty_witness :
  let c := ready [position_response 19196; []] in
  exists seg,
    log (port (snd (get_position_deg c))) = log (port c) ++ seg
    /\ checked seg.
Proof.
  intros c.
  destruct (proj1 (proj2 (proj2 (proj2 send_checks_input_empty))))
    as (_ & _ & _ & _ & _ & _ & _ & _ & H & _).
  apply (H c (inject_Z 19196 / EncCnt_per_deg)%Q (snd (get_position_deg c))).
  vm_compute. reflexivity.
Defined.

(** C10 as stated fails: once the connected device has gone silent, a
    request for 12 bytes returns normally with none consumed, and with 5
    bytes delivered it returns those 5; [get_position_deg] then reports 0
    degrees without an error. *)
Lemma send_short_read_counterexample :
  fst (_send poll_frame (Some 12%nat) (connected [])) = Val (Some [])
  /\ fst (_send poll_frame (Some 12%nat)
            (connected [[x12; x04; x06; x00; x81]]))
     = Val (Some [x12; x04; x06; x00; x81])
  /\ fst (get_position_deg (connected []))
     = Val (inject_Z 0 / EncCnt_per_deg)%Q
  /\ log (port (snd (get_position_deg (connected []))))
     = log (port (connected []))
         ++ [Tx poll_frame; Rx 12 []; Waiting 0].
Proof. vm_compute. repeat split; reflexivity. Qed.

(** ** A whole connection *)

Example connect_cooperative_device :
  let r := __init__ 0 (Some cooperative_device) true in
  fst r = Val tt
  /\ model_number (snd r) = expected_model_number
  /\ firmware_v (snd r) = 131592
  /\ serial_number (snd r) = 123456789
  /\ enable (snd r) = true
  /\ _homed (snd r) = true
  /\ _moving (snd r) = false
  /\ frames (log (port (snd r)))
     = [info_request;
        [x10; x02; x00; x01; x50; x01];
        [x11; x02; x00; x00; x50; x01];
        [x29; x04; x00; x00; x50; x01];
        poll_frame;
        [x13; x04; x0e; x00; xd0; x01; x01; x00; x00; x00; x00; x00;
         x6e; x01; x00; x00; x86; x61; x10; x00];
        velocity_query].
Proof. vm_compute. repeat split; reflexivity. Qed.

(** Whatever the cooperative device delivers later, [__init__] returns and
    leaves no move pending. *)
Example connected_returns (later : list (list byte)) :
  fst (__init__ 0 (Some (cooperative_device ++ later)) true) = Val tt
  /\ _moving (connected later) = false
  /\ ch_id_bytes (connected later) = [x01; x00]
  /\ arrivals (port (connected later)) = later.
Proof. vm_compute. repeat split; reflexivity. Qed.

(** * Further properties of the methods *)

(** ** The enable state and the homed flag *)

Lemma get_enable_run (c : Controller) :
  _get_enable c =
  let r := _send enable_query (Some 6%nat) c in
  match fst r with
  | Val resp =>
      match nth_error (bytes_of resp) 3 with
      | Some b =>
          if byte_to_Z b =? 1 then (Val true, set_enable_attr true (snd r))
          else if byte_to_Z b =? 2
               then (Val false, set_enable_attr false (snd r))
               else (Exc AssertionError, snd r)
      | None => (Exc IndexError, snd r)
      end
  | Exc e => (Exc e, snd r)
  | OutOfFuel => (OutOfFuel, snd r)
  end.
Proof.
  unfold _get_enable, index, bind, gets, modify, py_assert, lift_option, ret,
    raise, enable_query.
  destruct (_send _ (Some 6%nat) c) as [[resp|e|] c1]; try reflexivity.
  cbn [fst snd].
  destruct (nth_error (bytes_of resp) 3) as [b|]; [|reflexivity].
  cbn [option_map].
  destruct (byte_to_Z b =? 1) eqn:E1.
  - apply Z.eqb_eq in E1. rewrite E1. reflexivity.
  - destruct (byte_to_Z b =? 2); reflexivity.
Qed.

(** [_send] changes nothing of the object but its port. *)
Lemma send_only_port (cmd : list byte) (rb : option nat) (c : Controller) :
  snd (_send cmd rb c) = set_port (port (snd (_send cmd rb c))) c.
Proof. rewrite send_run. reflexivity. Qed.

Lemma send_some_value (cmd : list byte) (n : nat) (c : Controller)
    (r : option (list byte)) :
  fst (_send cmd (Some n) c) = Val r -> r = Some (reply n c).
Proof.
  destruct (send_some_log cmd n c) as (data & k & _ & Hout & Hdata).
  rewrite Hout. destruct (Nat.eqb k 0); [|discriminate].
  intros H. injection H as <-. rewrite Hdata. reflexivity.
Qed.

Lemma send_some_exc (cmd : list byte) (n : nat) (c : Controller) (e : exn) :
  fst (_send cmd (Some n) c) = Exc e -> e = AssertionError.
Proof.
  destruct (send_some_log cmd n c) as (data & k & _ & Hout & _).
  rewrite Hout. destruct (Nat.eqb k 0); [discriminate|].
  intros H. injection H as <-. reflexivity.
Qed.

Lemma send_not_out_of_fuel (cmd : list byte) (rb : option nat) (c : Controller) :
  fst (_send cmd rb c) <> OutOfFuel.
Proof.
  rewrite send_run. cbv zeta. cbn [fst].
  destruct (Nat.eqb _ 0); discriminate.
Qed.

Lemma byte_to_Z_inj (b b' : byte) : byte_to_Z b = byte_to_Z b' -> b = b'.
Proof.
  unfold byte_to_Z. intros H. apply N2Z.inj in H.
  pose proof (Byte.of_to_N b) as E. rewrite H, Byte.of_to_N in E.
  injection E as <-. reflexivity.
Qed.

(** X1: [_get_enable] returns [True] only on a response whose byte 3 is 1
    and [False] only on one whose byte 3 is 2, and stores what it returns
    in [enable]; when it raises, [enable] is left as it was, and the error
    is [IndexError] only when the response has fewer than 4 bytes.  The port
    sees the request, the read of 6 bytes and the look at the buffer. *)
Theorem get_enable_decodes (c : Controller) :
  (forall b,
      fst (_get_enable c) = Val b ->
      nth_error (reply 6 c) 3 = Some (if b then x01 else x02)
      /\ enable (snd (_get_enable c)) = b)
  /\ (forall e,
        fst (_get_enable c) = Exc e ->
        enable (snd (_get_enable c)) = enable c
        /\ (e = AssertionError \/ e = IndexError)
        /\ (e = IndexError -> (List.length (reply 6 c) <= 3)%nat))
  /\ (exists k,
        log (port (snd (_get_enable c)))
        = log (port c) ++ [Tx enable_query; Rx 6 (reply 6 c); Waiting k]).
Proof.
  rewrite get_enable_run. cbv zeta.
  destruct (send_some_log enable_query 6 c) as (data & k & Hlog & Hout & Hdata).
  fold (reply 6 c) in Hdata. subst data.
  pose proof (send_only_port enable_query (Some 6%nat) c) as Hport.
  pose proof (send_not_out_of_fuel enable_query (Some 6%nat) c) as Hfuel.
  destruct (fst (_send enable_query (Some 6%nat) c)) as [resp|e|] eqn:S1;
    [|clear Hfuel|contradiction].
  - apply send_some_value in S1. subst resp. cbn [bytes_of].
    destruct (nth_error (reply 6 c) 3) as [b|] eqn:N.
    + destruct (Z.eqb_spec (byte_to_Z b) 1) as [E1|E1];
        [|destruct (Z.eqb_spec (byte_to_Z b) 2) as [E2|E2]]; cbn [fst snd].
      * split; [|split].
        -- intros b0 H. injection H as <-.
           split; [|reflexivity]. f_equal.
           apply byte_to_Z_inj. rewrite E1. reflexivity.
        -- intros e H. discriminate H.
        -- exists k. exact Hlog.
      * split; [|split].
        -- intros b0 H. injection H as <-.
           split; [|reflexivity]. f_equal.
           apply byte_to_Z_inj. rewrite E2. reflexivity.
        -- intros e H. discriminate H.
        -- exists k. exact Hlog.
      * split; [|split].
        -- intros b0 H. discriminate H.
        -- intros e H. injection H as <-.
           split; [rewrite Hport; reflexivity|].
           split; [left; reflexivity | discriminate].
        -- exists k. exact Hlog.
    + cbn [fst snd]. split; [|split].
      * intros b0 H. discriminate H.
      * intros e H. injection H as <-.
        split; [rewrite Hport; reflexivity|].
        split; [right; reflexivity|]. intros _.
        apply nth_error_None. exact N.
      * exists k. exact Hlog.
  - cbn [fst snd]. split; [|split].
    + intros b0 H. discriminate H.
    + intros e0 H. injection H as <-.
      apply send_some_exc in S1. subst e.
      split; [rewrite Hport; reflexivity|].
      split; [left; reflexivity | discriminate].
    + exists k. exact Hlog.
Qed.

Lemma get_enable_decodes_witness :
  let c := ready [[x12; x02; x01; x02; x81; x50]; []] in
  nth_error (reply 6 c) 3 = Some x02
  /\ enable (snd (_get_enable c)) = false.
Proof.
  intros c. apply (proj1 (get_enable_decodes c) false). reflexivity.
Defined.

Lemma set_enable_run (enable' : bool) (c : Controller) :
  _set_enable enable' c =
  let s := _send (enable_frame enable') None c in
  match fst s with
  | Val _ =>
      let g := _get_enable (snd s) in
      match fst g with
      | Val e =>
          (if Bool.eqb e enable' then Val tt else Exc AssertionError, snd g)
      | Exc x => (Exc x, snd g)
      | OutOfFuel => (OutOfFuel, snd g)
      end
  | Exc x => (Exc x, snd s)
  | OutOfFuel => (OutOfFuel, snd s)
  end.
Proof.
  unfold _set_enable, bind, py_assert, ret, raise, enable_frame.
  destruct (_send _ None c) as [[r|x|] c1]; try reflexivity.
  cbn [fst snd].
  destruct (_get_enable c1) as [[e|x|] c2]; try reflexivity.
  cbn [fst snd]. destruct (Bool.eqb e enable'); reflexivity.
Qed.

(** The outcome of [_get_enable] in terms of what the port delivers. *)
Lemma get_enable_spec (c : Controller) :
  exists k,
    log (port (snd (_get_enable c)))
    = log (port c) ++ [Tx enable_query; Rx 6 (reply 6 c); Waiting k]
    /\ fst (_get_enable c)
       = (if Nat.eqb k 0
          then match nth_error (reply 6 c) 3 with
               | Some b =>
                   if byte_to_Z b =? 1 then Val true
                   else if byte_to_Z b =? 2 then Val false
                        else Exc AssertionError
               | None => Exc IndexError
               end
          else Exc AssertionError)
    /\ enable (snd (_get_enable c))
       = match fst (_get_enable c) with
         | Val b => b
         | _ => enable c
         end.
Proof.
  rewrite get_enable_run. cbv zeta.
  destruct (send_some_log enable_query 6 c) as (data & k & Hlog & Hout & Hdata).
  fold (reply 6 c) in Hdata. subst data.
  pose proof (send_only_port enable_query (Some 6%nat) c) as Hport.
  exists k. rewrite Hout.
  destruct (Nat.eqb k 0); cbn [fst snd bytes_of].
  - destruct (nth_error (reply 6 c) 3) as [b|].
    + destruct (byte_to_Z b =? 1); [|destruct (byte_to_Z b =? 2)];
        cbn [fst snd port set_enable_attr enable];
        (split; [exact Hlog|]); (split; [reflexivity|]);
        try reflexivity; rewrite Hport; reflexivity.
    + cbn [fst snd]. split; [exact Hlog|]. split; [reflexivity|].
      rewrite Hport. reflexivity.
  - split; [exact Hlog|]. split; [reflexivity|]. rewrite Hport. reflexivity.
Qed.

(** X2: [_set_enable(enable)] returns only when the device, asked again,
    reports the requested state: [enable] then holds it, and the port has
    seen the set frame (parameter 1 to enable, 2 to disable), the check of
    the buffer, and the enable query with its 6-byte read and check, in that
    order.  If the call raises, it is [AssertionError] or [IndexError]. *)
Theorem set_enable_verified (enable' : bool) (c : Controller) :
  (fst (_set_enable enable' c) = Val tt ->
   enable (snd (_set_enable enable' c)) = enable'
   /\ exists response,
        nth_error response 3 = Some (if enable' then x01 else x02)
        /\ log (port (snd (_set_enable enable' c)))
           = log (port c)
               ++ [Tx (enable_frame enable'); Waiting 0;
                   Tx enable_query; Rx 6 response; Waiting 0])
  /\ (forall e,
        fst (_set_enable enable' c) = Exc e ->
        e = AssertionError \/ e = IndexError)
  /\ nth_error (enable_frame enable') 3
     = Some (if enable' then x01 else x02).
Proof.
  rewrite set_enable_run. cbv zeta.
  destruct (send_none_log (enable_frame enable') c) as (k & Hlog & Hout).
  rewrite Hout.
  set (c1 := snd (_send (enable_frame enable') None c)) in *.
  destruct (get_enable_spec c1) as (k' & Hlog' & Hout' & Hattr).
  split; [|split; [|destruct enable'; reflexivity]].
  - destruct k as [|k]; cbn [Nat.eqb]; [|discriminate].
    rewrite Hout' in *.
    destruct k' as [|k']; cbn [Nat.eqb] in *; [|discriminate].
    destruct (nth_error (reply 6 c1) 3) as [b|] eqn:N; [|discriminate].
    destruct (Z.eqb_spec (byte_to_Z b) 1) as [E1|E1];
      [|destruct (Z.eqb_spec (byte_to_Z b) 2) as [E2|E2]];
      cbn [fst snd]; try discriminate;
      destruct enable'; cbn [Bool.eqb]; try discriminate; intros _;
      (split; [exact Hattr|]);
      exists (reply 6 c1);
      (split; [|rewrite Hlog', Hlog, <- app_assoc; reflexivity]).
    + rewrite N. f_equal. apply byte_to_Z_inj. rewrite E1. reflexivity.
    + rewrite N. f_equal. apply byte_to_Z_inj. rewrite E2. reflexivity.
  - intros e H. destruct k as [|k]; cbn [Nat.eqb] in H.
    + rewrite Hout' in H.
      destruct k' as [|k']; cbn [Nat.eqb fst] in H.
      * destruct (nth_error (reply 6 c1) 3) as [b|].
        -- destruct (byte_to_Z b =? 1); [|destruct (byte_to_Z b =? 2)];
             cbn [fst] in H;
             try (destruct enable'; cbn [Bool.eqb] in H);
             try discriminate H; injection H as <-; left; reflexivity.
        -- injection H as <-. right. reflexivity.
      * injection H as <-. left. reflexivity.
    + cbn [fst] in H. injection H as <-. left. reflexivity.
Qed.

Lemma set_enable_verified_witness :
  let c := ready [[]; [x12; x02; x01; x01; x81; x50]; []] in
  enable (snd (_set_enable true c)) = true
  /\ exists response,
       nth_error response 3 = Some x01
       /\ log (port (snd (_set_enable true c)))
          = log (port c)
              ++ [Tx (enable_frame true); Waiting 0;
                  Tx enable_query; Rx 6 response; Waiting 0].
Proof.
  intros c. apply (proj1 (set_enable_verified true c)). reflexivity.
Defined.

Lemma get_homed_status_run (c : Controller) :
  _get_homed_status c =
  let r := _send status_query (Some 12%nat) c in
  match fst r with
  | Val resp =>
      match nth_error (skipn 8 (bytes_of resp)) 1 with
      | Some b =>
          (Val (negb (Z.land (byte_to_Z b) 4 =? 0)),
           set_homed (negb (Z.land (byte_to_Z b) 4 =? 0)) (snd r))
      | None => (Exc IndexError, snd r)
      end
  | Exc e => (Exc e, snd r)
  | OutOfFuel => (OutOfFuel, snd r)
  end.
Proof.
  unfold _get_homed_status, index, bind, gets, modify, lift_option, ret,
    raise, status_query.
  destruct (_send _ (Some 12%nat) c) as [[resp|e|] c1]; try reflexivity.
  cbn [fst snd].
  destruct (nth_error (skipn 8 (bytes_of resp)) 1) as [b|]; reflexivity.
Qed.

Lemma homed_mask (b : byte) :
  negb (Z.land (byte_to_Z b) 4 =? 0) = Z.testbit (byte_to_Z b) 2.
Proof. destruct b; reflexivity. Qed.

Lemma nth_error_skipn {A} (n i : nat) (l : list A) :
  nth_error (skipn n l) i = nth_error l (n + i).
Proof.
  revert l. induction n as [|n IH]; intros l; [reflexivity|].
  destruct l as [|a l]; [now destruct i | apply IH].
Qed.

(** X3: [_get_homed_status] returns, and stores in [_homed], bit 2 of byte 9
    of the 12-byte status response; it raises [IndexError] exactly when the
    exchange passed its check with fewer than 10 bytes read, and then, as
    on any error, [_homed] is left as it was. *)
Theorem get_homed_status_decodes (c : Controller) :
  (forall h,
      fst (_get_homed_status c) = Val h ->
      _homed (snd (_get_homed_status c)) = h
      /\ exists b,
           nth_error (reply 12 c) 9 = Some b
           /\ h = Z.testbit (byte_to_Z b) 2)
  /\ (forall e,
        fst (_get_homed_status c) = Exc e ->
        _homed (snd (_get_homed_status c)) = _homed c
        /\ (e = AssertionError \/ e = IndexError))
  /\ (fst (_get_homed_status c) = Exc IndexError <->
      fst (_send status_query (Some 12%nat) c) = Val (Some (reply 12 c))
      /\ (List.length (reply 12 c) <= 9)%nat).
Proof.
  rewrite get_homed_status_run. cbv zeta.
  pose proof (send_only_port status_query (Some 12%nat) c) as Hport.
  pose proof (send_not_out_of_fuel status_query (Some 12%nat) c) as Hfuel.
  destruct (fst (_send status_query (Some 12%nat) c)) as [resp|e|] eqn:S1;
    [|clear Hfuel|contradiction].
  - apply send_some_value in S1. subst resp. cbn [bytes_of].
    rewrite nth_error_skipn. cbn [plus].
    destruct (nth_error (reply 12 c) 9) as [b|] eqn:N; cbn [fst snd].
    + split; [|split].
      * intros h H. injection H as <-. split; [reflexivity|].
        exists b. split; [reflexivity | apply homed_mask].
      * intros e H. discriminate H.
      * split; [discriminate|]. intros [_ L].
        apply nth_error_None in L. rewrite L in N. discriminate N.
    + split; [|split].
      * intros h H. discriminate H.
      * intros e H. injection H as <-.
        split; [rewrite Hport; reflexivity | right; reflexivity].
      * split; [|reflexivity]. intros _. split; [reflexivity|].
        apply nth_error_None. exact N.
  - cbn [fst snd]. apply send_some_exc in S1. subst e.
    split; [|split].
    + intros h H. discriminate H.
    + intros e H. injection H as <-.
      split; [rewrite Hport; reflexivity | left; reflexivity].
    + split; [discriminate | intros [H _]; discriminate H].
Qed.

Lemma get_homed_status_decodes_witness :
  let c := ready [[x2a; x04; x06; x00; x81; x50; x01; x00;
                   x00; x04; x00; x00]; []] in
  _homed (snd (_get_homed_status c)) = true
  /\ exists b,
       nth_error (reply 12 c) 9 = Some b
       /\ true = Z.testbit (byte_to_Z b) 2.
Proof.
  intros c. apply (proj1 (get_homed_status_decodes c) true). reflexivity.
Defined.

(** ** What the methods keep *)

Lemma preserves_ret {A} (I : Controller -> Prop) (a : A) : preserves I (ret a).
Proof. intros c H. exact H. Qed.

Lemma preserves_raise {A} (I : Controller -> Prop) (e : exn) :
  preserves I (@raise A e).
Proof. intros c H. exact H. Qed.

Lemma preserves_out_of_fuel {A} (I : Controller -> Prop) :
  preserves I (@out_of_fuel A).
Proof. intros c H. exact H. Qed.

Lemma preserves_gets {A} (I : Controller -> Prop) (f : Controller -> A) :
  preserves I (gets f).
Proof. intros c H. exact H. Qed.

Lemma preserves_py_assert (I : Controller -> Prop) (b : bool) :
  preserves I (py_assert b).
Proof. intros c H. destruct b; exact H. Qed.

Lemma preserves_lift_option {A} (I : Controller -> Prop) (e : exn)
    (o : option A) :
  preserves I (lift_option e o).
Proof. intros c H. destruct o; exact H. Qed.

Lemma preserves_modify (I : Controller -> Prop) (f : Controller -> Controller) :
  (forall c, I c -> I (f c)) -> preserves I (modify f).
Proof. intros Hf c H. apply Hf. exact H. Qed.

Lemma preserves_on_port {A} (I : Controller -> Prop) (f : Port -> A * Port) :
  blind I -> preserves I (on_port f).
Proof.
  intros Hb c H. unfold on_port. destruct (f (port c)) as [a p].
  apply Hb. exact H.
Qed.

Lemma preserves_bind {A B} (I : Controller -> Prop) (m : M A) (k : A -> M B) :
  preserves I m -> (forall a, preserves I (k a)) -> preserves I (bind m k).
Proof.
  intros Hm Hk c H. unfold bind. specialize (Hm c H).
  destruct (m c) as [[a|e|] c1]; cbn [snd] in *; try apply Hk; assumption.
Qed.

Lemma preserves_send (I : Controller -> Prop) (cmd : list byte)
    (rb : option nat) :
  blind I -> preserves I (_send cmd rb).
Proof.
  intros Hb c H. rewrite send_only_port. apply Hb. exact H.
Qed.

Create HintDb preserves.

#[local] Hint Resolve preserves_ret preserves_raise preserves_out_of_fuel
  preserves_gets preserves_py_assert preserves_lift_option preserves_on_port
  preserves_send : preserves.

Ltac preserves_step side :=
  first
    [ solve [auto with preserves]
    | apply preserves_modify; solve [side]
    | match goal with
      | |- preserves _ (if ?b then _ else _) => destruct b
      end
    | apply preserves_bind; [|intros ?] ].

Ltac preserves_method side := cbv zeta; repeat (preserves_step side).

(** *** The identity is assigned by [_get_info] alone *)

Lemma blind_identity (x : string * Z * Z * Z * Z) :
  blind (fun c => identity c = x).
Proof. intros c p H. exact H. Qed.

#[local] Hint Resolve blind_identity : preserves.

Ltac identity_side := intros ? H; exact H.

Lemma identity_get_enable x : preserves (fun c => identity c = x) _get_enable.
Proof. unfold _get_enable, index. preserves_method identity_side. Qed.

#[local] Hint Resolve identity_get_enable : preserves.

Lemma identity_set_enable x (e : bool) :
  preserves (fun c => identity c = x) (_set_enable e).
Proof. unfold _set_enable. preserves_method identity_side. Qed.

Lemma identity_get_homed_status x :
  preserves (fun c => identity c = x) _get_homed_status.
Proof. unfold _get_homed_status, index. preserves_method identity_side. Qed.

Lemma identity_get_position_deg x :
  preserves (fun c => identity c = x) get_position_deg.
Proof. unfold get_position_deg. preserves_method identity_side. Qed.

#[local] Hint Resolve identity_get_position_deg : preserves.

Lemma identity_quiet_position x :
  preserves (fun c => identity c = x) quiet_position.
Proof. unfold quiet_position. preserves_method identity_side. Qed.

#[local] Hint Resolve identity_quiet_position : preserves.

Lemma identity_home_loop x (fuel : nat) :
  preserves (fun c => identity c = x) (home_loop fuel).
Proof.
  induction fuel as [|fuel IH]; cbn [home_loop];
    preserves_method identity_side; exact IH.
Qed.

Lemma identity_finish_loop x (fuel : nat) :
  preserves (fun c => identity c = x) (finish_loop fuel).
Proof.
  induction fuel as [|fuel IH]; cbn [finish_loop];
    preserves_method identity_side; exact IH.
Qed.

#[local] Hint Resolve identity_home_loop identity_finish_loop : preserves.

Lemma identity_home x (fuel : nat) :
  preserves (fun c => identity c = x) (_home fuel).
Proof. unfold _home. preserves_method identity_side. Qed.

Lemma identity_get_velocity_parameters x :
  preserves (fun c => identity c = x) _get_velocity_parameters.
Proof. unfold _get_velocity_parameters. preserves_method identity_side. Qed.

#[local] Hint Resolve identity_get_velocity_parameters : preserves.

Lemma identity_set_velocity_parameters x (v a : Q) :
  preserves (fun c => identity c = x) (_set_velocity_parameters v a).
Proof. unfold _set_velocity_parameters. preserves_method identity_side. Qed.

Lemma identity_identify x : preserves (fun c => identity c = x) identify.
Proof. unfold identify. preserves_method identity_side. Qed.

Lemma identity_finish_move x (fuel : nat) :
  preserves (fun c => identity c = x) (_finish_move fuel).
Proof. unfold _finish_move. preserves_method identity_side. Qed.

#[local] Hint Resolve identity_finish_move : preserves.

Lemma identity_move_deg x (fuel : nat) (m : Q) (relative block : bool) :
  preserves (fun c => identity c = x) (move_deg fuel m relative block).
Proof. unfold move_deg. preserves_method identity_side. Qed.

(** X4: the identity of the device (model number, type, serial number,
    firmware and hardware versions) is assigned by [_get_info] alone: no
    other method changes it, whatever its outcome. *)
Theorem identity_is_immutable (fuel : nat) (c : Controller) :
  identity (snd (_get_enable c)) = identity c
  /\ (forall e, identity (snd (_set_enable e c)) = identity c)
  /\ identity (snd (_get_homed_status c)) = identity c
  /\ identity (snd (_home fuel c)) = identity c
  /\ identity (snd (_get_velocity_parameters c)) = identity c
  /\ (forall v a, identity (snd (_set_velocity_parameters v a c)) = identity c)
  /\ identity (snd (identify c)) = identity c
  /\ identity (snd (get_position_deg c)) = identity c
  /\ identity (snd (_finish_move fuel c)) = identity c
  /\ (forall m relative block,
        identity (snd (move_deg fuel m relative block c)) = identity c).
Proof.
  split; [apply (identity_get_enable (identity c)); reflexivity|].
  split; [intros e; apply (identity_set_enable (identity c)); reflexivity|].
  split; [apply (identity_get_homed_status (identity c)); reflexivity|].
  split; [apply (identity_home (identity c)); reflexivity|].
  split;
    [apply (identity_get_velocity_parameters (identity c)); reflexivity|].
  split;
    [intros v a;
     apply (identity_set_velocity_parameters (identity c)); reflexivity|].
  split; [apply (identity_identify (identity c)); reflexivity|].
  split; [apply (identity_get_position_deg (identity c)); reflexivity|].
  split; [apply (identity_finish_move (identity c)); reflexivity|].
  intros m relative block.
  apply (identity_move_deg (identity c)); reflexivity.
Qed.

